(** * Weather-Agent: the city-to-time / city-to-weather resolvers

    A shallow embedding of [src/config.py], [src/weather_service.py],
    [src/time_service.py] and of [check_configuration] / the sidebar status of
    [app/app.py], followed by the properties stated about them.

    Conventions of the embedding.

    - A Python [str] is a [string] holding its UTF-8 bytes.
    - Python values that travel through the resolvers (decoded JSON, the
      returned dictionaries, request parameters) are terms of [value]; a
      [dict] keeps its insertion order as an association list.
    - The two constant look-up tables are finite maps ([gmap]); only
      membership and look-up are ever used on them.
    - Effects: a computation of type [Eff A] yields the list of outbound
      HTTP requests it issued, and either a returned value or a raised
      exception.  [logger] calls change neither and are left out.
    - Everything the process cannot decide by itself (environment variables,
      what the remote end answers, the time-zone database, the clock, and the
      Unicode tables behind [str.lower] / [str.capitalize] / [repr]) is read
      from a [World]. *)

From stdpp Require Import gmap strings list fin_maps pretty.
From Stdlib Require Import ZArith Lia Ascii.

Set Warnings "-register-all".
Local Open Scope string_scope.
Local Open Scope list_scope.
Local Open Scope Z_scope.

(** ** Python values *)

Inductive value : Type :=
| VNone
| VBool (b : bool)
| VInt (n : Z)
| VFloat (repr : string)        (* a float, named by the text [repr] prints *)
| VStr (s : string)
| VList (l : list value)
| VDict (d : list (string * value)).

(** Look-up of a key in a dictionary body. *)
Fixpoint assoc (k : string) (d : list (string * value)) : option value :=
  match d with
  | [] => None
  | (k', v) :: d' => if String.eqb k k' then Some v else assoc k d'
  end.

Definition keys (v : value) : list string :=
  match v with VDict d => d.*1 | _ => [] end.

(** [r.get(k)] on a value known to be a dictionary; [None] when absent. *)
Definition field (k : string) (v : value) : option value :=
  match v with VDict d => assoc k d | _ => None end.

(** ** Exceptions *)

Inductive exn : Type :=
| RequestException          (* requests.exceptions.RequestException *)
| HTTPError                 (* raised by raise_for_status *)
| ConnectionError
| Timeout
| RequestsJSONDecodeError   (* requests >= 2.27: both RequestException and ValueError *)
| JSONDecodeError           (* json.JSONDecodeError, a ValueError *)
| ValueError
| KeyError
| ZoneInfoNotFoundError     (* a KeyError *)
| IndexError
| TypeError
| AttributeError
| OverflowError
| OSError.

Definition is_RequestException (e : exn) : bool :=
  match e with
  | RequestException | HTTPError | ConnectionError | Timeout
  | RequestsJSONDecodeError => true
  | _ => false
  end.

Definition is_KeyError (e : exn) : bool :=
  match e with KeyError | ZoneInfoNotFoundError => true | _ => false end.

Definition is_ValueError (e : exn) : bool :=
  match e with
  | ValueError | JSONDecodeError | RequestsJSONDecodeError => true
  | _ => false
  end.

Inductive result (A : Type) : Type :=
| Returns (a : A)
| Raises (e : exn).
Arguments Returns {A} a.
Arguments Raises {A} e.

(** ** Effects: the requests sent, and the outcome *)

Record event : Type := HttpGet {
  ev_url : string;
  ev_params : list (string * value);
  ev_timeout : Z
}.

Definition Eff (A : Type) : Type := (list event * result A)%type.

Definition trace {A} (m : Eff A) : list event := m.1.
Definition outcome {A} (m : Eff A) : result A := m.2.

#[global] Instance Eff_ret : MRet Eff := λ A a, ([], Returns a).

#[global] Instance Eff_bind : MBind Eff := λ A B f m,
  match m with
  | (t, Returns a) => let '(t', r) := f a in (t ++ t', r)
  | (t, Raises e) => (t, Raises e)
  end.

Definition raise {A} (e : exn) : Eff A := ([], Raises e).

Definition lift {A} (r : result A) : Eff A := ([], r).

(** [try: m  except ...:] where [handlers e] is the body of the first
    [except] clause that matches [e], if any. *)
Definition try_except {A} (m : Eff A) (handlers : exn → option (Eff A)) : Eff A :=
  match m with
  | (t, Raises e) =>
      match handlers e with
      | Some h => let '(t', r) := h in (t ++ t', r)
      | None => (t, Raises e)
      end
  | _ => m
  end.

(** ** Operations on values *)

(** Truth value of an [Optional[str]], as used by [if not X]. *)
Definition truthy (o : option string) : bool :=
  match o with
  | Some s => negb (String.eqb s "")
  | None => false
  end.

Definition of_option (o : option string) : value :=
  match o with Some s => VStr s | None => VNone end.

(** Truth value of a Python value in a boolean context. *)
Definition py_bool (v : value) : bool :=
  match v with
  | VNone => false
  | VBool b => b
  | VInt n => negb (n =? 0)
  | VFloat r => negb (String.eqb r "0.0" || String.eqb r "-0.0")
  | VStr s => negb (String.eqb s "")
  | VList l => match l with [] => false | _ => true end
  | VDict d => match d with [] => false | _ => true end
  end.

(** [v == 'lit'] for a string literal. *)
Definition eq_str (v : value) (lit : string) : bool :=
  match v with VStr s => String.eqb s lit | _ => false end.

(** [v[k]] with a string key. *)
Definition getitem (v : value) (k : string) : result value :=
  match v with
  | VDict d => match assoc k d with Some x => Returns x | None => Raises KeyError end
  | _ => Raises TypeError
  end.

(** A continuation byte of a UTF-8 sequence: 10xxxxxx. *)
Definition is_continuation (c : ascii) : bool :=
  let n := nat_of_ascii c in (128 <=? n)%nat && (n <? 192)%nat.

Definition starts_with_continuation (s : string) : bool :=
  match s with String c _ => is_continuation c | EmptyString => false end.

(** The characters (code points) of a string. *)
Fixpoint chars (s : string) : list string :=
  match s with
  | EmptyString => []
  | String c rest =>
      if starts_with_continuation rest then
        match chars rest with
        | h :: t => String c h :: t
        | [] => [String c EmptyString]
        end
      else String c EmptyString :: chars rest
  end.

Definition index {A} (l : list A) (i : Z) : option A :=
  let n := Z.of_nat (length l) in
  if (0 <=? i) && (i <? n) then l !! Z.to_nat i
  else if (- n <=? i) && (i <? 0) then l !! Z.to_nat (n + i)
  else None.

(** [v[i]] with an integer index. *)
Definition getitem_int (v : value) (i : Z) : result value :=
  match v with
  | VList l => match index l i with Some x => Returns x | None => Raises IndexError end
  | VStr s => match index (chars s) i with Some c => Returns (VStr c) | None => Raises IndexError end
  | VDict _ => Raises KeyError      (* decoded JSON objects only have str keys *)
  | _ => Raises TypeError
  end.

(** [v.get(k)]: only dictionaries have the method. *)
Definition method_get (v : value) (k : string) : result value :=
  match v with
  | VDict d => Returns (default VNone (assoc k d))
  | _ => Raises AttributeError
  end.

(** [s.replace(" ", "")]. *)
Fixpoint remove_spaces (s : string) : string :=
  match s with
  | EmptyString => EmptyString
  | String c rest =>
      if Ascii.eqb c " "%char then remove_spaces rest
      else String c (remove_spaces rest)
  end.

(** ** Calendar and clock *)

(** A naive [datetime]: seconds of local wall-clock time since
    1970-01-01T00:00:00. *)
Definition datetime : Type := Z.

(** A [tzinfo]: the offset from UTC, in seconds, in force at a UTC instant. *)
Definition tzinfo : Type := Z → Z.

Definition dt_hour (dt : datetime) : Z := (dt / 3600) mod 24.
Definition dt_minute (dt : datetime) : Z := (dt / 60) mod 60.

(** Proleptic Gregorian date of a day number counted from 1970-01-01. *)
Definition civil_from_days (days : Z) : Z * Z * Z :=
  let z := days + 719468 in
  let era := z / 146097 in
  let doe := z - era * 146097 in
  let yoe := (doe - doe / 1460 + doe / 36524 - doe / 146096) / 365 in
  let doy := doe - (365 * yoe + yoe / 4 - yoe / 100) in
  let mp := (5 * doy + 2) / 153 in
  let d := doy - (153 * mp + 2) / 5 + 1 in
  let m := if mp <? 10 then mp + 3 else mp - 9 in
  let y := yoe + era * 400 + (if m <=? 2 then 1 else 0) in
  (y, m, d).

Definition digit (n : Z) : ascii := ascii_of_nat (48 + Z.to_nat (n mod 10)).

Definition pad2 (n : Z) : string :=
  String (digit (n / 10)) (String (digit n) EmptyString).

(** [dt.strftime('%H:%M')]. *)
Definition strftime_HM (dt : datetime) : string :=
  pad2 (dt_hour dt) +:+ ":" +:+ pad2 (dt_minute dt).

(** [dt.strftime('%Y-%m-%d')].  The year is printed as the C library of
    Linux prints [%Y]: in decimal, without padding (four digits from year
    1000 on, "987" for the year 987); month and day take two digits. *)
Definition strftime_Ymd (dt : datetime) : string :=
  let '(y, m, d) := civil_from_days (dt / 86400) in
  pretty y +:+ "-" +:+ pad2 m +:+ "-" +:+ pad2 d.

(** ** The world outside the process *)

Inductive reply : Type :=
| NoReply (e : exn)                              (* [requests.get] raises *)
| Reply (status_code : Z) (body : result value). (* a response; [body] is what [.json()] gives *)

Record World : Type := {
  (* os.environ once load_dotenv() has run *)
  environ : gmap string string;
  (* the remote end: the answer to a GET of a URL with given parameters *)
  http : string → list (string * value) → reply;
  (* zoneinfo: the time-zone database *)
  zone_db : string → option tzinfo;
  (* time.time(), in whole seconds *)
  time_time : Z;
  (* the C library's conversion of an epoch second to local wall-clock time *)
  localtime : Z → result datetime;
  localtime_float : string → result datetime;
  (* Unicode-table driven builtins *)
  str_lower : string → string;
  str_capitalize : string → string;
  py_repr : value → string
}.

Definition set_time (w : World) (t : Z) : World :=
  {| environ := environ w; http := http w; zone_db := zone_db w;
     time_time := t; localtime := localtime w;
     localtime_float := localtime_float w; str_lower := str_lower w;
     str_capitalize := str_capitalize w; py_repr := py_repr w |}.

(** [os.getenv(name)] and [os.getenv(name, default)]. *)
Definition getenv (w : World) (name : string) : option string := environ w !! name.

Definition getenv_default (w : World) (name fallback : string) : option string :=
  Some (default fallback (environ w !! name)).

(** [str(v)], as an f-string interpolates it. *)
Definition py_str (w : World) (v : value) : string :=
  match v with
  | VStr s => s
  | VInt n => pretty n
  | VFloat r => r
  | VNone => "None"
  | VBool true => "True"
  | VBool false => "False"
  | VList _ | VDict _ => py_repr w v
  end.

(** [s.capitalize()]: a method of [str] only. *)
Definition capitalize (w : World) (v : value) : result value :=
  match v with
  | VStr s => Returns (VStr (str_capitalize w s))
  | _ => Raises AttributeError
  end.

(** [requests.get(url, params=params, timeout=timeout)]. *)
Definition requests_get (w : World) (url : string) (params : list (string * value))
    (timeout : Z) : Eff reply :=
  ([HttpGet url params timeout],
   match http w url params with
   | NoReply e => Raises e
   | r => Returns r
   end).

(** A 4xx or 5xx status code. *)
Definition http_error_status (code : Z) : bool := (400 <=? code) && (code <? 600).

(** [response.raise_for_status()]. *)
Definition raise_for_status (r : reply) : Eff unit :=
  match r with
  | Reply code _ => if http_error_status code then raise HTTPError else mret tt
  | NoReply e => raise e
  end.

(** [response.json()]. *)
Definition json (r : reply) : Eff value :=
  match r with
  | Reply _ body => lift body
  | NoReply e => raise e
  end.

(** [ZoneInfo(key)]. *)
Definition ZoneInfo (w : World) (key : string) : Eff tzinfo :=
  match zone_db w key with
  | Some tz => mret tz
  | None => raise ZoneInfoNotFoundError
  end.

(** [datetime.now(tz)]. *)
Definition datetime_now (w : World) (tz : tzinfo) : datetime :=
  time_time w + tz (time_time w).

(** [datetime.fromtimestamp(ts)]: numbers are converted by the platform,
    anything else is a [TypeError]. *)
Definition fromtimestamp (w : World) (ts : value) : Eff datetime :=
  match ts with
  | VInt n => lift (localtime w n)
  | VBool b => lift (localtime w (if b then 1 else 0))
  | VFloat r => lift (localtime_float w r)
  | _ => raise TypeError
  end.

(** ** src/config.py *)

(** The class attributes of [Config], evaluated once when the module is
    imported. *)
Record Config : Type := {
  GOOGLE_API_KEY : option string;
  GOOGLE_MAPS_PLATFORM_API_KEY : option string;
  OPIK_API_KEY : option string;
  OPIK_WORKSPACE : option string;
  OPIK_PROJECT_NAME : option string;
  OPENWEATHER_API_KEY : option string;
  TIMEZONEDB_API_KEY : option string;
  AGENT_MODEL : string;
  AGENT_NAME : string
}.

(** The global [config] instance. *)
Definition config (w : World) : Config := {|
  GOOGLE_API_KEY := getenv w "GOOGLE_API_KEY";
  GOOGLE_MAPS_PLATFORM_API_KEY := getenv w "GOOGLE_MAPS_PLATFORM_API_KEY";
  OPIK_API_KEY := getenv w "OPIK_API_KEY";
  OPIK_WORKSPACE := getenv w "OPIK_WORKSPACE";
  OPIK_PROJECT_NAME := getenv_default w "OPIK_PROJECT_NAME" "weather-agent";
  OPENWEATHER_API_KEY := getenv w "OPENWEATHER_API_KEY";
  TIMEZONEDB_API_KEY := getenv w "TIMEZONEDB_API_KEY";
  AGENT_MODEL := "gemini-2.0-flash";
  AGENT_NAME := "weather_time_city_agent"
|}.

Definition validate_config (cls : Config) : list string :=
  let missing := [] in
  let missing :=
    if negb (truthy (GOOGLE_API_KEY cls)) then missing ++ ["GOOGLE_API_KEY"] else missing in
  let missing :=
    if negb (truthy (GOOGLE_MAPS_PLATFORM_API_KEY cls))
    then missing ++ ["GOOGLE_MAPS_PLATFORM_API_KEY"] else missing in
  let missing :=
    if negb (truthy (OPIK_API_KEY cls)) then missing ++ ["OPIK_API_KEY"] else missing in
  let missing :=
    if negb (truthy (OPIK_WORKSPACE cls)) then missing ++ ["OPIK_WORKSPACE"] else missing in
  missing.

Definition is_production_ready (cls : Config) : bool :=
  (length (validate_config cls) =? 0)%nat.

(** ** src/weather_service.py *)

Module WeatherService.

Definition BASE_URL : string := "https://api.openweathermap.org/data/2.5/weather".

(** The table local to [_get_mock_weather]. *)
Definition mock_weather : gmap string value := list_to_map [
  ("newyork", VDict [
     ("status", VStr "success");
     ("report", VStr "The weather in New York is sunny with a temperature of 45째F.")]);
  ("london", VDict [
     ("status", VStr "success");
     ("report", VStr "It's cloudy in London with a temperature of 55째F.")]);
  ("tokyo", VDict [
     ("status", VStr "success");
     ("report", VStr "Tokyo is experiencing light rain and a temperature of 72째F.")])
].

Definition _get_mock_weather (w : World) (city : string) : Eff value :=
  let city_normalized := remove_spaces (str_lower w city) in
  match mock_weather !! city_normalized with
  | Some r => mret r
  | None =>
      mret (VDict [
        ("status", VStr "error");
        ("error_message",
          VStr ("Sorry, I don't have weather information for '" +:+ city +:+ "'."))])
  end.

(** The two [except] clauses of [get_weather]. *)
Definition except_clauses (city : string) (e : exn) : option (Eff value) :=
  if is_RequestException e then
    Some (mret (VDict [
      ("status", VStr "error");
      ("error_message",
        VStr ("Unable to fetch weather data for '" +:+ city
              +:+ "'. Please check the city name and try again."))]))
  else if is_KeyError e || is_ValueError e then
    Some (mret (VDict [
      ("status", VStr "error");
      ("error_message",
        VStr ("Received invalid weather data for '" +:+ city +:+ "'."))]))
  else None.

Definition get_weather (w : World) (city : string) : Eff value :=
  try_except
    (if negb (truthy (OPENWEATHER_API_KEY (config w))) then
       _get_mock_weather w city
     else
       let params := [
         ("q", VStr city);
         ("appid", of_option (OPENWEATHER_API_KEY (config w)));
         ("units", VStr "imperial")] in
       response ← requests_get w BASE_URL params 10;
       _ ← raise_for_status response;
       data ← json response;
       (* weather_info = {...}: the entries are evaluated in order *)
       wi_city ← lift (getitem data "name");
       sys ← lift (getitem data "sys");
       wi_country ← lift (getitem sys "country");
       main ← lift (getitem data "main");
       wi_temperature ← lift (getitem main "temp");
       weather ← lift (getitem data "weather");
       weather0 ← lift (getitem_int weather 0);
       description ← lift (getitem weather0 "description");
       wi_description ← lift (capitalize w description);
       main ← lift (getitem data "main");
       wi_humidity ← lift (getitem main "humidity");
       wind ← lift (getitem data "wind");
       wi_wind_speed ← lift (getitem wind "speed");
       main ← lift (getitem data "main");
       wi_pressure ← lift (getitem main "pressure");
       let weather_info := VDict [
         ("status", VStr "success");
         ("city", wi_city);
         ("country", wi_country);
         ("temperature", wi_temperature);
         ("description", wi_description);
         ("humidity", wi_humidity);
         ("wind_speed", wi_wind_speed);
         ("pressure", wi_pressure)] in
       let report :=
         "The weather in " +:+ py_str w wi_city +:+ ", " +:+ py_str w wi_country +:+ " is "
         +:+ py_str w wi_description +:+ " with a temperature of "
         +:+ py_str w wi_temperature +:+ "째F. "
         +:+ "Humidity: " +:+ py_str w wi_humidity +:+ "%, Wind: "
         +:+ py_str w wi_wind_speed +:+ " mph, "
         +:+ "Pressure: " +:+ py_str w wi_pressure +:+ " hPa." in
       mret (VDict [
         ("status", VStr "success");
         ("report", VStr report);
         ("data", weather_info)]))
    (except_clauses city).

End WeatherService.

(** ** src/time_service.py *)

Module TimeService.

Definition BASE_URL : string := "https://api.timezonedb.com/v2.1/get-time-zone".

Definition FALLBACK_TIMEZONES : gmap string string := list_to_map [
  ("newyork", "America/New_York");
  ("london", "Europe/London");
  ("tokyo", "Asia/Tokyo");
  ("paris", "Europe/Paris");
  ("sydney", "Australia/Sydney");
  ("losangeles", "America/Los_Angeles");
  ("chicago", "America/Chicago");
  ("mumbai", "Asia/Kolkata");
  ("beijing", "Asia/Shanghai");
  ("moscow", "Europe/Moscow")
].

Definition no_timezone_information (city : string) : value :=
  VDict [
    ("status", VStr "error");
    ("error_message",
      VStr ("Sorry, I don't have timezone information for '" +:+ city +:+ "'."))].

Definition _get_timezone_from_api (w : World) (city : string) : Eff value :=
  try_except
    (let params := [
       ("key", of_option (TIMEZONEDB_API_KEY (config w)));
       ("format", VStr "json");
       ("by", VStr "position");
       ("lat", VInt 0);
       ("lng", VInt 0)] in
     mret VNone)
    (λ _, Some (mret VNone)).

Definition _get_fallback_time (w : World) (city : string) : Eff value :=
  let city_normalized := remove_spaces (str_lower w city) in
  match FALLBACK_TIMEZONES !! city_normalized with
  | Some timezone =>
      (* [Some r]: the [try] body returned [r]; [None]: control fell out of
         the [except Exception] clause *)
      returned ← try_except
        (tz ← ZoneInfo w timezone;
         let now := datetime_now w tz in
         let report :=
           "The current time in " +:+ city +:+ " is " +:+ strftime_HM now +:+ "." in
         mret (Some (VDict [
           ("status", VStr "success");
           ("report", VStr report);
           ("data", VDict [
              ("city", VStr city);
              ("timezone", VStr timezone);
              ("formatted_time", VStr (strftime_HM now))])])))
        (λ _, Some (mret None));
      match returned with
      | Some r => mret r
      | None => mret (no_timezone_information city)
      end
  | None => mret (no_timezone_information city)
  end.

(** The part of [get_current_time] after [zone_name] is known. *)
Definition query_by_zone (w : World) (city : string) (zone_name : value) : Eff value :=
  let params := [
    ("key", of_option (TIMEZONEDB_API_KEY (config w)));
    ("format", VStr "json");
    ("by", VStr "zone");
    ("zone", zone_name)] in
  response ← requests_get w BASE_URL params 10;
  _ ← raise_for_status response;
  data ← json response;
  status ← lift (method_get data "status");
  if eq_str status "OK" then
    timestamp ← lift (getitem data "timestamp");
    dt ← fromtimestamp w timestamp;
    let report :=
      "The current time in " +:+ city +:+ " (" +:+ py_str w zone_name +:+ ") is "
      +:+ strftime_HM dt +:+ " on " +:+ strftime_Ymd dt +:+ "." in
    mret (VDict [
      ("status", VStr "success");
      ("report", VStr report);
      ("data", VDict [
         ("city", VStr city);
         ("timezone", zone_name);
         ("timestamp", timestamp);
         ("formatted_time", VStr (strftime_HM dt));
         ("formatted_date", VStr (strftime_Ymd dt))])])
  else
    _get_fallback_time w city.

(** The two [except] clauses of [get_current_time]. *)
Definition except_clauses (w : World) (city : string) (e : exn) : option (Eff value) :=
  if is_RequestException e then Some (_get_fallback_time w city)
  else if is_KeyError e || is_ValueError e then Some (_get_fallback_time w city)
  else None.

Definition get_current_time (w : World) (city : string) : Eff value :=
  try_except
    (if negb (truthy (TIMEZONEDB_API_KEY (config w))) then
       _get_fallback_time w city
     else
       let city_normalized := remove_spaces (str_lower w city) in
       timezone_data ← _get_timezone_from_api w city;
       (* timezone_data and timezone_data.get('status') == 'OK' *)
       from_api ←
         (if py_bool timezone_data then
            status ← lift (method_get timezone_data "status");
            mret (eq_str status "OK")
          else mret false);
       if from_api : bool then
         zone_name ← lift (getitem timezone_data "zoneName");
         query_by_zone w city zone_name
       else
         match FALLBACK_TIMEZONES !! city_normalized with
         | Some zone_name => query_by_zone w city (VStr zone_name)
         | None => mret (no_timezone_information city)
         end)
    (except_clauses w city).

End TimeService.

(** ** app/app.py: the configuration status *)

Module app.

(** [sep.join(l)]. *)
Fixpoint join (sep : string) (l : list string) : string :=
  match l with
  | [] => ""
  | [x] => x
  | x :: rest => x +:+ sep +:+ join sep rest
  end.

Definition check_configuration (w : World) : option string :=
  let missing := validate_config (config w) in
  match missing with
  | [] => None
  | _ =>
      Some ("Missing required configuration: " +:+ join ", " missing
            +:+ ". Please check your .env file.")
  end.

Inductive widget : Type :=
| st_error (body : string)
| st_success (body : string).

(** The "Configuration status" block of [display_sidebar]. *)
Definition display_sidebar_status (w : World) : widget :=
  let config_error := check_configuration w in
  if truthy config_error then
    st_error ("⚠️ Configuration Issue: " +:+ default "" config_error)
  else st_success "✅ Configuration OK".

End app.

(** ** Concrete worlds, for running the resolvers *)

Module Worlds.

Definition lower_char (c : ascii) : ascii :=
  let n := nat_of_ascii c in
  if (65 <=? n)%nat && (n <=? 90)%nat then ascii_of_nat (n + 32) else c.

Definition upper_char (c : ascii) : ascii :=
  let n := nat_of_ascii c in
  if (97 <=? n)%nat && (n <=? 122)%nat then ascii_of_nat (n - 32) else c.

(** [str.lower] and [str.capitalize] as they act on ASCII text. *)
Fixpoint ascii_lower (s : string) : string :=
  match s with
  | EmptyString => EmptyString
  | String c rest => String (lower_char c) (ascii_lower rest)
  end.

Definition ascii_capitalize (s : string) : string :=
  match s with
  | EmptyString => EmptyString
  | String c rest => String (upper_char c) (ascii_lower rest)
  end.

(** Standard-time offsets of the zones named in the fallback table. *)
Definition standard_offsets : gmap string Z := list_to_map [
  ("America/New_York", -18000); ("Europe/London", 0); ("Asia/Tokyo", 32400);
  ("Europe/Paris", 3600); ("Australia/Sydney", 36000);
  ("America/Los_Angeles", -28800); ("America/Chicago", -21600);
  ("Asia/Kolkata", 19800); ("Asia/Shanghai", 28800); ("Europe/Moscow", 10800)
].

Definition standard_zones (key : string) : option tzinfo :=
  (λ off _, off) <$> standard_offsets !! key.

(** A machine with an empty time-zone database. *)
Definition no_zones (key : string) : option tzinfo := None.

(** A machine whose local time is UTC, whose clock reads [t], with
    environment [env], zone database [db], and remote end [remote].  Its
    string methods are the ASCII ones; it converts whole epoch seconds of
    the years 1970 to 9999 and refuses every other timestamp. *)
Definition machine (env : gmap string string)
    (remote : string → list (string * value) → reply)
    (db : string → option tzinfo) (t : Z) : World := {|
  environ := env;
  http := remote;
  zone_db := db;
  time_time := t;
  localtime := λ n, if (0 <=? n) && (n <? 253402300800) then Returns n else Raises OverflowError;
  localtime_float := λ _, Raises OverflowError;
  str_lower := ascii_lower;
  str_capitalize := ascii_capitalize;
  py_repr := λ _, "..."
|}.

Definition unreachable : string → list (string * value) → reply :=
  λ _ _, NoReply ConnectionError.

Definition answers (status_code : Z) (body : value) : string → list (string * value) → reply :=
  λ _ _, Reply status_code (Returns body).

(** No credential at all; 2023-11-14 22:13:20 UTC. *)
Definition bare : World := machine ∅ unreachable standard_zones 1700000000.

(** The same, ninety minutes later. *)
Definition bare_later : World := set_time bare 1700005400.

(** No credential, and no time-zone database either. *)
Definition bare_no_zones : World := machine ∅ unreachable no_zones 1700000000.

Definition time_key : gmap string string := {[ "TIMEZONEDB_API_KEY" := "k" ]}.
Definition weather_key : gmap string string := {[ "OPENWEATHER_API_KEY" := "k" ]}.

(** The time endpoint answers OK with a timestamp. *)
Definition live_time_ok : World :=
  machine time_key
    (answers 200 (VDict [("status", VStr "OK"); ("timestamp", VInt 1700000000)]))
    standard_zones 1700000000.

(** The time endpoint is unreachable. *)
Definition live_time_down : World :=
  machine time_key unreachable standard_zones 1700000000.

(** The time endpoint answers OK with the timestamp as a string. *)
Definition live_time_text_timestamp : World :=
  machine time_key
    (answers 200 (VDict [("status", VStr "OK"); ("timestamp", VStr "1700000000")]))
    standard_zones 1700000000.

(** The time endpoint answers with a JSON array. *)
Definition live_time_array : World :=
  machine time_key (answers 200 (VList [])) standard_zones 1700000000.

(** The weather endpoint times out. *)
Definition live_weather_timeout : World :=
  machine weather_key (λ _ _, NoReply Timeout) standard_zones 1700000000.

(** The weather endpoint answers without the "wind" entry. *)
Definition live_weather_no_wind : World :=
  machine weather_key
    (answers 200 (VDict [
       ("name", VStr "London");
       ("sys", VDict [("country", VStr "GB")]);
       ("main", VDict [("temp", VInt 55); ("humidity", VInt 80); ("pressure", VInt 1012)]);
       ("weather", VList [VDict [("description", VStr "overcast clouds")]])]))
    standard_zones 1700000000.

(** The weather endpoint answers with an empty "weather" list. *)
Definition live_weather_empty_list : World :=
  machine weather_key
    (answers 200 (VDict [
       ("name", VStr "London");
       ("sys", VDict [("country", VStr "GB")]);
       ("main", VDict [("temp", VInt 55); ("humidity", VInt 80); ("pressure", VInt 1012)]);
       ("weather", VList []);
       ("wind", VDict [("speed", VInt 3)])]))
    standard_zones 1700000000.

(** The weather endpoint answers completely. *)
Definition live_weather_ok : World :=
  machine weather_key
    (answers 200 (VDict [
       ("name", VStr "London");
       ("sys", VDict [("country", VStr "GB")]);
       ("main", VDict [("temp", VInt 55); ("humidity", VInt 80); ("pressure", VInt 1012)]);
       ("weather", VList [VDict [("description", VStr "overcast clouds")]]);
       ("wind", VDict [("speed", VInt 3)])]))
    standard_zones 1700000000.

(** The four checked variables set, the two resolver credentials unset. *)
Definition checked_only : World :=
  machine
    (list_to_map [
       ("GOOGLE_API_KEY", "g"); ("GOOGLE_MAPS_PLATFORM_API_KEY", "m");
       ("OPIK_API_KEY", "o"); ("OPIK_WORKSPACE", "ws")])
    unreachable standard_zones 1700000000.

End Worlds.

(** * Vocabulary of the statements *)

(** The key under which both resolvers look a city up. *)
Definition city_key (w : World) (city : string) : string :=
  remove_spaces (str_lower w city).

(** A clock reading printed as HH:MM. *)
Definition HHMM (s : string) : Prop :=
  ∃ h m, 0 ≤ h < 24 ∧ 0 ≤ m < 60 ∧ s = pad2 h +:+ ":" +:+ pad2 m.

Definition is_digit (c : ascii) : bool :=
  let n := nat_of_ascii c in (48 <=? n)%nat && (n <=? 57)%nat.

(** Two digits, a colon, two digits. *)
Definition two_colon_two (s : string) : bool :=
  match s with
  | String a (String b (String c (String d (String e EmptyString)))) =>
      is_digit a && is_digit b && Ascii.eqb c ":" && is_digit d && is_digit e
  | _ => false
  end.

(** The two report sentences of the time resolver. *)
Definition short_report (city hm : string) : string :=
  "The current time in " +:+ city +:+ " is " +:+ hm +:+ ".".

Definition long_report (city zone hm ymd : string) : string :=
  "The current time in " +:+ city +:+ " (" +:+ zone +:+ ") is " +:+ hm
  +:+ " on " +:+ ymd +:+ ".".

(** [sub] occurs in [s]. *)
Definition mentions (s sub : string) : Prop :=
  ∃ before after, s = before +:+ sub +:+ after.

(** The [except] clauses of both resolvers catch exactly these. *)
Definition caught (e : exn) : bool :=
  is_RequestException e || is_KeyError e || is_ValueError e.

(** Exactly one of report / error_message, as the status says. *)
Definition LookupResult_ok (r : value) : Prop :=
  (is_Some (field "report" r) ↔ field "status" r = Some (VStr "success")) ∧
  (is_Some (field "error_message" r) ↔ field "status" r = Some (VStr "error")) ∧
  (is_Some (field "report" r) ↔ ¬ is_Some (field "error_message" r)).

(** The three layouts a resolver ever returns. *)
Inductive layout : value → Prop :=
| layout_success report :
    layout (VDict [("status", VStr "success"); ("report", VStr report)])
| layout_success_data report data :
    layout (VDict [("status", VStr "success"); ("report", VStr report); ("data", data)])
| layout_error message :
    layout (VDict [("status", VStr "error"); ("error_message", VStr message)]).

(** Every value a computation may return satisfies [P]. *)
Definition returns_only {A} (P : A → Prop) (m : Eff A) : Prop :=
  ∀ a, outcome m = Returns a → P a.

(** The value a computation returns, if it returns. *)
Definition outcome_value {A} (m : Eff A) : option A :=
  match outcome m with Returns a => Some a | Raises _ => None end.

(** A computation that sends no request. *)
Definition silent {A} (m : Eff A) : Prop := trace m = [].

(** The request [get_current_time] sends once the zone is known. *)
Definition zone_request (w : World) (zone_name : value) : event :=
  HttpGet TimeService.BASE_URL
    [("key", of_option (TIMEZONEDB_API_KEY (config w)));
     ("format", VStr "json"); ("by", VStr "zone"); ("zone", zone_name)] 10.

(** The request [get_weather] sends. *)
Definition weather_request (w : World) (city : string) : event :=
  HttpGet WeatherService.BASE_URL
    [("q", VStr city);
     ("appid", of_option (OPENWEATHER_API_KEY (config w)));
     ("units", VStr "imperial")] 10.

(** The ways the live time-by-zone call can fail and be caught: no reply,
    an HTTP error status, a body that is not JSON, a status other than OK, no
    timestamp, a timestamp the platform rejects. *)
Inductive live_time_call_fails (w : World) : reply → Prop :=
| fails_no_reply e :
    caught e = true → live_time_call_fails w (NoReply e)
| fails_http_status code body :
    http_error_status code = true → live_time_call_fails w (Reply code body)
| fails_not_json code e :
    http_error_status code = false → caught e = true →
    live_time_call_fails w (Reply code (Raises e))
| fails_status_not_ok code d :
    http_error_status code = false →
    eq_str (default VNone (assoc "status" d)) "OK" = false →
    live_time_call_fails w (Reply code (Returns (VDict d)))
| fails_no_timestamp code d :
    http_error_status code = false →
    assoc "status" d = Some (VStr "OK") →
    assoc "timestamp" d = None →
    live_time_call_fails w (Reply code (Returns (VDict d)))
| fails_timestamp_rejected code d ts e :
    http_error_status code = false →
    assoc "status" d = Some (VStr "OK") →
    assoc "timestamp" d = Some ts →
    outcome (fromtimestamp w ts) = Raises e → caught e = true →
    live_time_call_fails w (Reply code (Returns (VDict d))).

(** Two sentences that agree except for one HH:MM reading. *)
Definition same_but_HHMM (s1 s2 : string) : Prop :=
  ∃ before hm1 hm2 after, HHMM hm1 ∧ HHMM hm2 ∧
    s1 = before +:+ hm1 +:+ after ∧ s2 = before +:+ hm2 +:+ after.

(** The reports of two results are both absent, or both present and equal
    up to the HH:MM reading. *)
Definition reports_agree (r1 r2 : value) : Prop :=
  match field "report" r1, field "report" r2 with
  | Some (VStr s1), Some (VStr s2) => same_but_HHMM s1 s2
  | None, None => True
  | _, _ => False
  end.

(** The names [validate_config] checks, in the order it checks them. *)
Definition required_settings : list string :=
  ["GOOGLE_API_KEY"; "GOOGLE_MAPS_PLATFORM_API_KEY"; "OPIK_API_KEY"; "OPIK_WORKSPACE"].

(** * The rest of the code *)

(** ** src/agent.py: the two tool functions *)

Module agent.

Definition get_weather (w : World) (city : string) : Eff value :=
  WeatherService.get_weather w city.

Definition get_current_time (w : World) (city : string) : Eff value :=
  TimeService.get_current_time w city.

End agent.

(** ** app/app.py: the session and one run of the script *)

Module chat.

(** A turn [{"role": ..., "content": ...}]. *)
Record message : Type := { role : string; content : string }.

(** [st.session_state]: each key is absent or holds a value. *)
Record session_state : Type := {
  messages : option (list message);
  agent_initialized : option bool
}.

(** What [weather_agent.run_live(prompt)] gives back: an object with a
    [text] attribute, a [str], or another object, named by its [str()]. *)
Inductive response : Type :=
| with_text (text : string)
| plain (s : string)
| object (str : string).

(** How the [try] block of the chat interface ends: with a response, or
    with an exception [e], named by [str(e)]. *)
Inductive agent_outcome : Type :=
| responds (r : response)
| throws (str_e : string).

(** The widgets of one run: the two buttons and the chat input. *)
Record widgets : Type := {
  clear_chat : bool;
  try_again : bool;
  chat_input : option string
}.

(** A run of the script: the prompts passed to the agent, and the session
    state it leaves or the exception it raises. *)
Definition Run : Type := (list string * result session_state)%type.

Definition initialize_session_state (s : session_state) : session_state :=
  let s :=
    match messages s with
    | None => {| messages := Some []; agent_initialized := agent_initialized s |}
    | Some _ => s
    end in
  match agent_initialized s with
  | None => {| messages := messages s; agent_initialized := Some false |}
  | Some _ => s
  end.

(** The "Clear Chat" button of [display_sidebar]: the new state, and whether
    [st.rerun()] ended the run. *)
Definition display_sidebar (ui : widgets) (s : session_state) : session_state * bool :=
  if clear_chat ui then
    ({| messages := Some []; agent_initialized := agent_initialized s |}, true)
  else (s, false).

Definition response_text (r : response) : string :=
  match r with
  | with_text text => text
  | plain s => s
  | object str => str
  end.

(** [st.session_state.messages.append(turn)]. *)
Definition append (s : session_state) (turn : message) : result session_state :=
  match messages s with
  | Some history =>
      Returns {| messages := Some (history ++ [turn]);
                 agent_initialized := agent_initialized s |}
  | None => Raises AttributeError
  end.

Definition display_chat_interface (run_live : string → agent_outcome)
    (ui : widgets) (s : session_state) : Run :=
  match messages s with
  | None => ([], Raises AttributeError)
  | Some _ =>
      if truthy (chat_input ui) then
        let prompt := default "" (chat_input ui) in
        match append s {| role := "user"; content := prompt |} with
        | Raises e => ([], Raises e)
        | Returns s =>
            ([prompt],
             match run_live prompt with
             | responds r =>
                 append s {| role := "assistant"; content := response_text r |}
             | throws str_e =>
                 append s {| role := "assistant";
                             content := "Sorry, I encountered an error: " +:+ str_e |}
             end)
        end
      else ([], Returns s)
  end.

Definition main (MISSING_PACKAGES : list string) (run_live : string → agent_outcome)
    (ui : widgets) (s : session_state) : Run :=
  match MISSING_PACKAGES with
  | _ :: _ => ([], Returns s)
  | [] =>
      let s := initialize_session_state s in
      let '(s, rerun) := display_sidebar ui s in
      if rerun : bool then ([], Returns s)
      else display_chat_interface run_live ui s
  end.

(** The history of a state; empty when the key is absent. *)
Definition history (s : session_state) : list message := default [] (messages s).

(** Successive runs, each with its own widgets; a run that raises leaves the
    state as it was. *)
Fixpoint runs (run_live : string → agent_outcome) (uis : list widgets)
    (s : session_state) : session_state :=
  match uis with
  | [] => s
  | ui :: rest =>
      match main [] run_live ui s with
      | (_, Returns s') => runs run_live rest s'
      | (_, Raises _) => runs run_live rest s
      end
  end.

(** User and assistant turns alternate, the user first, the assistant last. *)
Fixpoint paired (l : list message) : Prop :=
  match l with
  | [] => True
  | u :: a :: rest => role u = "user" ∧ role a = "assistant" ∧ paired rest
  | _ => False
  end.

End chat.

(** ** run_local.py *)

Module run_local.

(** How [subprocess.run] ends. *)
Inductive subprocess_outcome : Type :=
| completed (returncode : Z)
| keyboard_interrupt
| raised (e : exn).

(** [importable m]: whether [import m] succeeds. *)
Definition check_requirements (importable : string → bool) : bool :=
  importable "streamlit" && importable "google.adk" && importable "opik".

Definition check_configuration (w : World) : bool :=
  match validate_config (config w) with
  | [] => true
  | _ => false
  end.

Definition run_streamlit (app_exists : bool) (run : subprocess_outcome) : bool :=
  if negb app_exists then false
  else
    match run with
    | completed _ => true
    | keyboard_interrupt => true
    | raised _ => false
    end.

Definition main (importable : string → bool) (w : World) (app_exists : bool)
    (run : subprocess_outcome) : Z :=
  if negb (check_requirements importable) then 1
  else
    let _ := check_configuration w in
    let success := run_streamlit app_exists run in
    if success then 0 else 1.

End run_local.

(** ** More concrete worlds *)

Module MoreWorlds.

(** The weather endpoint answers 200 with a body whose decoding raises [e]. *)
Definition weather_not_json (e : exn) : World :=
  Worlds.machine Worlds.weather_key (λ _ _, Reply 200 (Raises e))
    Worlds.standard_zones 1700000000.

(** The weather endpoint answers 200 with a JSON array. *)
Definition weather_array : World :=
  Worlds.machine Worlds.weather_key (Worlds.answers 200 (VList []))
    Worlds.standard_zones 1700000000.

End MoreWorlds.

(** * Vocabulary of the further statements *)

(** The three error results of the weather resolver. *)
Definition weather_unable (city : string) : value :=
  VDict [
    ("status", VStr "error");
    ("error_message",
      VStr ("Unable to fetch weather data for '" +:+ city
            +:+ "'. Please check the city name and try again."))].

Definition weather_invalid (city : string) : value :=
  VDict [
    ("status", VStr "error");
    ("error_message", VStr ("Received invalid weather data for '" +:+ city +:+ "'."))].

Definition weather_unknown (city : string) : value :=
  VDict [
    ("status", VStr "error");
    ("error_message", VStr ("Sorry, I don't have weather information for '" +:+ city +:+ "'."))].

(** What the weather resolver can return for [city]: a success result, or
    one of its three error results. *)
Inductive weather_result (city : string) : value → Prop :=
| weather_success r :
    field "status" r = Some (VStr "success") → weather_result city r
| weather_is_unable : weather_result city (weather_unable city)
| weather_is_invalid : weather_result city (weather_invalid city)
| weather_is_unknown : weather_result city (weather_unknown city).

(** What the time resolver can return for [city]: a success result, or its
    one error result. *)
Inductive time_result (city : string) : value → Prop :=
| time_success r :
    field "status" r = Some (VStr "success") → time_result city r
| time_unknown : time_result city (TimeService.no_timezone_information city).

(** The turn the chat interface appends for the assistant. *)
Definition assistant_turn (o : chat.agent_outcome) : chat.message :=
  {| chat.role := "assistant";
     chat.content :=
       match o with
       | chat.responds r => chat.response_text r
       | chat.throws str_e => "Sorry, I encountered an error: " +:+ str_e
       end |}.

Definition user_turn (prompt : string) : chat.message :=
  {| chat.role := "user"; chat.content := prompt |}.

(** A result whose status is success. *)
Definition succeeded (r : value) : Prop := field "status" r = Some (VStr "success").

(** Lowercase ASCII letters only. *)
Fixpoint lowercase_letters (s : string) : bool :=
  match s with
  | EmptyString => true
  | String c rest =>
      let n := nat_of_ascii c in
      (97 <=? n)%nat && (n <=? 122)%nat && lowercase_letters rest
  end.


(** * Proofs *)

(** ** Clock readings *)

Section Clock.

Lemma digit_is_digit n : is_digit (digit n) = true.
Proof.
  unfold digit.
  assert (H : 0 ≤ n `mod` 10 < 10) by (apply Z.mod_pos_bound; lia).
  assert (Hk : (Z.to_nat (n `mod` 10) < 10)%nat) by lia.
  revert Hk. generalize (Z.to_nat (n `mod` 10)). intros k Hk.
  do 10 (destruct k as [|k]; [reflexivity|]).
  lia.
Qed.

Lemma dt_hour_bound dt : 0 ≤ dt_hour dt < 24.
Proof. unfold dt_hour. apply Z.mod_pos_bound. lia. Qed.

Lemma dt_minute_bound dt : 0 ≤ dt_minute dt < 60.
Proof. unfold dt_minute. apply Z.mod_pos_bound. lia. Qed.

Lemma strftime_HM_HHMM dt : HHMM (strftime_HM dt).
Proof.
  exists (dt_hour dt), (dt_minute dt).
  split; [apply dt_hour_bound|]. split; [apply dt_minute_bound|]. reflexivity.
Qed.

Lemma HHMM_two_colon_two s : HHMM s → two_colon_two s = true.
Proof.
  intros (h & m & _ & _ & ->).
  change (is_digit (digit (h / 10)) && is_digit (digit h) && Ascii.eqb ":" ":"
          && is_digit (digit (m / 10)) && is_digit (digit m) = true).
  rewrite !digit_is_digit. reflexivity.
Qed.

(** The year takes as many digits as it has. *)
Lemma strftime_Ymd_years :
  strftime_Ymd (-31000000000) = "987-08-25" ∧
  strftime_Ymd 1700000000 = "2023-11-14" ∧
  strftime_Ymd 253402300799 = "9999-12-31".
Proof. repeat split; reflexivity. Qed.

End Clock.

(** ** Traces and outcomes of composite computations *)

Section Monad.

Context {A B : Type}.

Lemma mret_bind (a : A) (f : A → Eff B) : mret a ≫= f = f a.
Proof. cbn. by destruct (f a). Qed.

Lemma trace_bind (m : Eff A) (f : A → Eff B) :
  trace (m ≫= f) =
  trace m ++ match outcome m with Returns a => trace (f a) | Raises _ => [] end.
Proof.
  destruct m as [t [a|e]]; cbn; [|by rewrite app_nil_r].
  by destruct (f a).
Qed.

Lemma outcome_bind (m : Eff A) (f : A → Eff B) :
  outcome (m ≫= f) =
  match outcome m with Returns a => outcome (f a) | Raises e => Raises e end.
Proof. destruct m as [t [a|e]]; cbn; [|done]. by destruct (f a). Qed.

Lemma trace_try (m : Eff A) handlers :
  trace (try_except m handlers) =
  trace m ++ match outcome m with
             | Raises e => from_option trace [] (handlers e)
             | Returns _ => []
             end.
Proof.
  destruct m as [t [a|e]]; cbn; [by rewrite app_nil_r|].
  destruct (handlers e) as [[t' r]|]; cbn; [done|by rewrite app_nil_r].
Qed.

Lemma outcome_try (m : Eff A) handlers :
  outcome (try_except m handlers) =
  match outcome m with
  | Raises e => from_option outcome (Raises e) (handlers e)
  | Returns a => Returns a
  end.
Proof.
  destruct m as [t [a|e]]; cbn; [done|].
  by destruct (handlers e) as [[t' r]|].
Qed.

Lemma silent_bind (m : Eff A) (f : A → Eff B) :
  silent m → (∀ a, silent (f a)) → silent (m ≫= f).
Proof.
  unfold silent. intros Hm Hf. rewrite trace_bind, Hm.
  destruct (outcome m); [apply Hf|done].
Qed.

Lemma silent_lift (r : result A) : silent (lift r).
Proof. done. Qed.

Lemma silent_mret (a : A) : silent (mret a).
Proof. done. Qed.

Lemma returns_only_mret (P : A → Prop) a : P a → returns_only P (mret a).
Proof. intros H a' [= <-]. exact H. Qed.

Lemma returns_only_lift (P : A → Prop) (r : result A) :
  (∀ a, r = Returns a → P a) → returns_only P (lift r).
Proof. intros H a. apply H. Qed.

Lemma returns_only_bind (P : B → Prop) (m : Eff A) (f : A → Eff B) :
  (∀ a, returns_only P (f a)) → returns_only P (m ≫= f).
Proof.
  intros Hf b. rewrite outcome_bind.
  destruct (outcome m) as [a|e]; [apply Hf|intros [=]].
Qed.

Lemma returns_only_try (P : A → Prop) (m : Eff A) handlers :
  returns_only P m →
  (∀ e h, handlers e = Some h → returns_only P h) →
  returns_only P (try_except m handlers).
Proof.
  intros Hm Hh a. rewrite outcome_try.
  destruct (outcome m) as [a'|e] eqn:E; [intros [= <-]; by apply Hm|].
  destruct (handlers e) as [h|] eqn:Eh; cbn; [by apply (Hh e h)|intros [=]].
Qed.

End Monad.

Lemma silent_raise_for_status r : silent (raise_for_status r).
Proof. destruct r as [e|code body]; cbn; [done|]. by case_match. Qed.

Lemma silent_json r : silent (json r).
Proof. by destruct r. Qed.

Lemma silent_fromtimestamp w ts : silent (fromtimestamp w ts).
Proof. by destruct ts. Qed.

(** ** The two tables *)

Lemma FALLBACK_TIMEZONES_dom :
  dom TimeService.FALLBACK_TIMEZONES =
  list_to_set ["newyork"; "london"; "tokyo"; "paris"; "sydney"; "losangeles";
               "chicago"; "mumbai"; "beijing"; "moscow"] ∧
  size TimeService.FALLBACK_TIMEZONES = 10%nat.
Proof.
  split; [|reflexivity].
  unfold TimeService.FALLBACK_TIMEZONES. by rewrite dom_list_to_map_L.
Qed.

Lemma FALLBACK_TIMEZONES_listed key :
  key ∈ ["newyork"; "london"; "tokyo"; "paris"; "sydney"; "losangeles";
         "chicago"; "mumbai"; "beijing"; "moscow"] ↔
  is_Some (TimeService.FALLBACK_TIMEZONES !! key).
Proof.
  rewrite <- elem_of_dom, (proj1 FALLBACK_TIMEZONES_dom), elem_of_list_to_set.
  reflexivity.
Qed.

Lemma mock_weather_dom :
  dom WeatherService.mock_weather = list_to_set ["newyork"; "london"; "tokyo"] ∧
  size WeatherService.mock_weather = 3%nat.
Proof.
  split; [|reflexivity].
  unfold WeatherService.mock_weather. by rewrite dom_list_to_map_L.
Qed.

Lemma mock_weather_listed key :
  key ∈ ["newyork"; "london"; "tokyo"] ↔ is_Some (WeatherService.mock_weather !! key).
Proof.
  rewrite <- elem_of_dom, (proj1 mock_weather_dom), elem_of_list_to_set.
  reflexivity.
Qed.

Lemma mock_weather_entries key r :
  WeatherService.mock_weather !! key = Some r →
  ∃ report, r = VDict [("status", VStr "success"); ("report", VStr report)].
Proof.
  intros H. apply elem_of_list_to_map_2 in H.
  repeat (apply elem_of_cons in H as [[= _ ->] | H]; [eexists; reflexivity|]).
  by apply elem_of_nil in H.
Qed.

(** ** The time resolver: the fallback path *)

Section TimeFallback.

Import TimeService.

Variable w : World.
Variable city : string.

Lemma _get_fallback_time_unknown :
  FALLBACK_TIMEZONES !! city_key w city = None →
  _get_fallback_time w city = ([], Returns (no_timezone_information city)).
Proof.
  intros H. unfold _get_fallback_time. fold (city_key w city).
  rewrite H. reflexivity.
Qed.

Lemma _get_fallback_time_known zone :
  FALLBACK_TIMEZONES !! city_key w city = Some zone →
  _get_fallback_time w city =
    ([], Returns
           match zone_db w zone with
           | Some tz =>
               VDict [
                 ("status", VStr "success");
                 ("report", VStr (short_report city (strftime_HM (datetime_now w tz))));
                 ("data", VDict [
                    ("city", VStr city);
                    ("timezone", VStr zone);
                    ("formatted_time", VStr (strftime_HM (datetime_now w tz)))])]
           | None => no_timezone_information city
           end).
Proof.
  intros H. unfold _get_fallback_time. fold (city_key w city).
  rewrite H. unfold ZoneInfo. destruct (zone_db w zone); reflexivity.
Qed.

(** The fallback path sends nothing and always returns. *)
Lemma _get_fallback_time_total :
  ∃ r, _get_fallback_time w city = ([], Returns r).
Proof.
  destruct (FALLBACK_TIMEZONES !! city_key w city) as [zone|] eqn:E.
  - rewrite (_get_fallback_time_known zone E). eauto.
  - rewrite (_get_fallback_time_unknown E). eauto.
Qed.

Lemma silent_fallback_time : silent (_get_fallback_time w city).
Proof. by destruct _get_fallback_time_total as [r ->]. Qed.

Lemma get_current_time_no_credential :
  truthy (TIMEZONEDB_API_KEY (config w)) = false →
  get_current_time w city = _get_fallback_time w city.
Proof.
  intros H. unfold get_current_time. rewrite H. cbn [negb].
  destruct _get_fallback_time_total as [r ->]. reflexivity.
Qed.

Lemma except_clauses_caught e :
  caught e = true → except_clauses w city e = Some (_get_fallback_time w city).
Proof.
  unfold caught, except_clauses.
  destruct (is_RequestException e); [done|]. cbn. by intros ->.
Qed.

End TimeFallback.

(** C3, as the code has it.  Without a live-time credential, a city whose key
    is one of the ten of the fallback table gets status success and the
    report "The current time in {city} is HH:MM." whenever the time-zone
    database of the machine provides the zone the table names; when the
    database does not, the [except] clause of the fallback path answers
    with the status error result.  No request is sent either way. *)
Theorem time_fallback_listed_city (w : World) (city : string) :
  truthy (TIMEZONEDB_API_KEY (config w)) = false →
  city_key w city ∈ ["newyork"; "london"; "tokyo"; "paris"; "sydney";
                     "losangeles"; "chicago"; "mumbai"; "beijing"; "moscow"] →
  ∃ zone, TimeService.FALLBACK_TIMEZONES !! city_key w city = Some zone ∧
    match zone_db w zone with
    | Some tz =>
        ∃ hm, HHMM hm ∧ two_colon_two hm = true ∧
          TimeService.get_current_time w city =
            ([], Returns (VDict [
                   ("status", VStr "success");
                   ("report", VStr ("The current time in " +:+ city +:+ " is " +:+ hm +:+ "."));
                   ("data", VDict [
                      ("city", VStr city);
                      ("timezone", VStr zone);
                      ("formatted_time", VStr hm)])]))
    | None =>
        TimeService.get_current_time w city =
          ([], Returns (VDict [
                 ("status", VStr "error");
                 ("error_message",
                   VStr ("Sorry, I don't have timezone information for '" +:+ city +:+ "'."))]))
    end.
Proof.
  intros Hkey [zone Hzone]%FALLBACK_TIMEZONES_listed.
  exists zone. split; [exact Hzone|].
  rewrite (get_current_time_no_credential w city Hkey).
  rewrite (_get_fallback_time_known w city zone Hzone).
  destruct (zone_db w zone) as [tz|]; [|reflexivity].
  exists (strftime_HM (datetime_now w tz)).
  split; [apply strftime_HM_HHMM|].
  split; [apply HHMM_two_colon_two, strftime_HM_HHMM|reflexivity].
Qed.

Lemma time_fallback_listed_city_witness :
  truthy (TIMEZONEDB_API_KEY (config Worlds.bare)) = false ∧
  city_key Worlds.bare "New York" ∈ ["newyork"; "london"; "tokyo"; "paris"; "sydney";
                                    "losangeles"; "chicago"; "mumbai"; "beijing"; "moscow"] ∧
  ∃ zone, TimeService.FALLBACK_TIMEZONES !! city_key Worlds.bare "New York" = Some zone ∧
    match zone_db Worlds.bare zone with
    | Some tz =>
        ∃ hm, HHMM hm ∧ two_colon_two hm = true ∧
          TimeService.get_current_time Worlds.bare "New York" =
            ([], Returns (VDict [
                   ("status", VStr "success");
                   ("report", VStr ("The current time in " +:+ "New York" +:+ " is " +:+ hm +:+ "."));
                   ("data", VDict [
                      ("city", VStr "New York");
                      ("timezone", VStr zone);
                      ("formatted_time", VStr hm)])]))
    | None =>
        TimeService.get_current_time Worlds.bare "New York" =
          ([], Returns (VDict [
                 ("status", VStr "error");
                 ("error_message",
                   VStr ("Sorry, I don't have timezone information for '"
                         +:+ "New York" +:+ "'."))]))
    end.
Proof.
  assert (Hkey : truthy (TIMEZONEDB_API_KEY (config Worlds.bare)) = false)
    by reflexivity.
  assert (Hcity : city_key Worlds.bare "New York"
                    ∈ ["newyork"; "london"; "tokyo"; "paris"; "sydney";
                       "losangeles"; "chicago"; "mumbai"; "beijing"; "moscow"]).
  { change (city_key Worlds.bare "New York") with "newyork".
    apply list_elem_of_here. }
  split; [exact Hkey|]. split; [exact Hcity|].
  exact (time_fallback_listed_city Worlds.bare "New York" Hkey Hcity).
Defined.

(** C3 as worded fails where the zone database is missing: the key of
    "London" is in the table and no credential is configured, yet the
    resolver does not return status success. *)
Lemma time_fallback_without_zone_database :
  truthy (TIMEZONEDB_API_KEY (config Worlds.bare_no_zones)) = false ∧
  city_key Worlds.bare_no_zones "London"
    ∈ ["newyork"; "london"; "tokyo"; "paris"; "sydney";
       "losangeles"; "chicago"; "mumbai"; "beijing"; "moscow"] ∧
  TimeService.get_current_time Worlds.bare_no_zones "London" =
    ([], Returns (VDict [
           ("status", VStr "error");
           ("error_message", VStr "Sorry, I don't have timezone information for 'London'.")])) ∧
  ¬ ∃ r, outcome (TimeService.get_current_time Worlds.bare_no_zones "London") = Returns r ∧
         field "status" r = Some (VStr "success").
Proof.
  split; [reflexivity|]. split.
  { change (city_key Worlds.bare_no_zones "London") with "london".
    apply list_elem_of_further, list_elem_of_here. }
  split; [reflexivity|].
  intros (r & Hr & Hs). vm_compute in Hr. injection Hr as <-. discriminate Hs.
Qed.

(** C4.  Without a live-time credential, a city whose key is not in the
    fallback table gets status error and the message
    "Sorry, I don't have timezone information for '{city}'." with the city
    exactly as given; no request is sent. *)
Theorem time_fallback_unlisted_city (w : World) (city : string) :
  truthy (TIMEZONEDB_API_KEY (config w)) = false →
  TimeService.FALLBACK_TIMEZONES !! city_key w city = None →
  TimeService.get_current_time w city =
    ([], Returns (VDict [
           ("status", VStr "error");
           ("error_message",
             VStr ("Sorry, I don't have timezone information for '" +:+ city +:+ "'."))])).
Proof.
  intros Hkey Hzone.
  rewrite (get_current_time_no_credential w city Hkey).
  apply _get_fallback_time_unknown, Hzone.
Qed.

Lemma time_fallback_unlisted_city_witness :
  truthy (TIMEZONEDB_API_KEY (config Worlds.bare)) = false ∧
  TimeService.FALLBACK_TIMEZONES !! city_key Worlds.bare "Nowhereville" = None ∧
  TimeService.get_current_time Worlds.bare "Nowhereville" =
    ([], Returns (VDict [
           ("status", VStr "error");
           ("error_message",
             VStr "Sorry, I don't have timezone information for 'Nowhereville'.")])).
Proof.
  split; [reflexivity|]. split; [reflexivity|].
  apply (time_fallback_unlisted_city Worlds.bare "Nowhereville"); reflexivity.
Defined.

(** ** The time resolver: the live path *)

Section TimeLive.

Import TimeService.

Variable w : World.
Variable city : string.

(** One step of a sequence of statements. *)
Ltac step :=
  rewrite outcome_bind;
  cbn [outcome snd raise_for_status json lift raise mret Eff_ret
       method_get getitem default from_option].

(** Once the zone is known, exactly one request goes out. *)
Lemma query_by_zone_trace zone_name :
  trace (query_by_zone w city zone_name) = [zone_request w zone_name].
Proof.
  unfold query_by_zone. rewrite trace_bind.
  change (trace (requests_get _ _ _ _)) with [zone_request w zone_name].
  match goal with |- _ ++ ?rest = _ => assert (rest = []) as ->; [|done] end.
  destruct (outcome _) as [response|]; [|done].
  apply silent_bind; [apply silent_raise_for_status|]. intros _.
  apply silent_bind; [apply silent_json|]. intros data.
  apply silent_bind; [apply silent_lift|]. intros status.
  destruct (eq_str status "OK"); [|apply silent_fallback_time].
  apply silent_bind; [apply silent_lift|]. intros timestamp.
  apply silent_bind; [apply silent_fromtimestamp|]. intros dt.
  apply silent_mret.
Qed.

(** With a credential and a key of the table, the zone comes from the table
    and the live endpoint is queried. *)
Lemma get_current_time_by_table zone :
  truthy (TIMEZONEDB_API_KEY (config w)) = true →
  FALLBACK_TIMEZONES !! city_key w city = Some zone →
  get_current_time w city =
    try_except (query_by_zone w city (VStr zone)) (except_clauses w city).
Proof.
  intros Hkey Hzone. unfold get_current_time. rewrite Hkey.
  fold (city_key w city). rewrite Hzone. cbn [negb]. f_equal.
  unfold _get_timezone_from_api. cbn [try_except mret Eff_ret].
  rewrite mret_bind. cbn [py_bool]. by rewrite mret_bind.
Qed.

Lemma query_by_zone_ok zone_name code d ts dt :
  http w BASE_URL (ev_params (zone_request w zone_name)) = Reply code (Returns (VDict d)) →
  http_error_status code = false →
  assoc "status" d = Some (VStr "OK") →
  assoc "timestamp" d = Some ts →
  outcome (fromtimestamp w ts) = Returns dt →
  outcome (query_by_zone w city zone_name) =
    Returns (VDict [
      ("status", VStr "success");
      ("report",
        VStr (long_report city (py_str w zone_name) (strftime_HM dt) (strftime_Ymd dt)));
      ("data", VDict [
         ("city", VStr city);
         ("timezone", zone_name);
         ("timestamp", ts);
         ("formatted_time", VStr (strftime_HM dt));
         ("formatted_date", VStr (strftime_Ymd dt))])]).
Proof.
  intros Hreply Hcode Hstatus Hts Hdt.
  cbn [ev_params zone_request] in Hreply.
  unfold query_by_zone, requests_get. rewrite outcome_bind.
  cbn [outcome snd]. rewrite Hreply.
  step. rewrite Hcode. cbn [outcome snd mret Eff_ret].
  step. step. rewrite Hstatus, Hts. cbn [default from_option id eq_str].
  rewrite String.eqb_refl. step.
  rewrite outcome_bind, Hdt. reflexivity.
Qed.

Lemma query_by_zone_fails zone_name :
  live_time_call_fails w (http w BASE_URL (ev_params (zone_request w zone_name))) →
  outcome (try_except (query_by_zone w city zone_name) (except_clauses w city)) =
  outcome (_get_fallback_time w city).
Proof.
  intros Hfail. cbn [ev_params zone_request] in Hfail.
  rewrite outcome_try. unfold query_by_zone, requests_get.
  rewrite outcome_bind. cbn [outcome snd].
  destruct Hfail as [e He|code body Hcode|code e Hcode He|code d Hcode Hst
                    |code d Hcode Hst Hts|code d ts e Hcode Hst Hts Hdt He].
  - by rewrite (except_clauses_caught w city e He).
  - step. rewrite Hcode. cbn [outcome snd raise].
    by rewrite except_clauses_caught.
  - step. rewrite Hcode. cbn [outcome snd mret Eff_ret].
    step. by rewrite (except_clauses_caught w city e He).
  - step. rewrite Hcode. cbn [outcome snd mret Eff_ret].
    step. step. fold (default VNone (assoc "status" d)). rewrite Hst.
    by destruct (_get_fallback_time_total w city) as [r ->].
  - step. rewrite Hcode. cbn [outcome snd mret Eff_ret].
    step. step. rewrite Hst, Hts. cbn [default from_option id eq_str].
    rewrite String.eqb_refl. step. by rewrite except_clauses_caught.
  - step. rewrite Hcode. cbn [outcome snd mret Eff_ret].
    step. step. rewrite Hst, Hts. cbn [default from_option id eq_str].
    rewrite String.eqb_refl. step.
    rewrite outcome_bind, Hdt. by rewrite (except_clauses_caught w city e He).
Qed.

End TimeLive.

(** C1, as the code has it.  With a live-time credential and a city whose
    key is in the fallback table, the geocoding step yields nothing, the
    zone is taken from the table and exactly one request is sent to the live
    time-by-zone endpoint, for that zone.  When the endpoint answers without
    an HTTP error status, with a JSON object whose status is OK and whose
    timestamp [datetime.fromtimestamp] converts, the result is status
    success with the report
    "The current time in {city} ({zone}) is HH:MM on YYYY-MM-DD." (the date
    as [strftime('%Y-%m-%d')] prints it) and a data entry.  When the call
    fails in a way the resolver catches (no reply, an HTTP error status, a
    body that is not JSON, a status other than OK, no timestamp, a timestamp
    rejected with a ValueError), the result is the one of the fallback path:
    the short report "The current time in {city} is HH:MM." if the zone
    database provides the zone, the status error result otherwise.  What
    happens when the timestamp is not a number is not stated here. *)
Theorem time_live_listed_city (w : World) (city zone : string) :
  truthy (TIMEZONEDB_API_KEY (config w)) = true →
  TimeService.FALLBACK_TIMEZONES !! city_key w city = Some zone →
  let answer := http w TimeService.BASE_URL (ev_params (zone_request w (VStr zone))) in
  TimeService._get_timezone_from_api w city = ([], Returns VNone) ∧
  trace (TimeService.get_current_time w city) = [zone_request w (VStr zone)] ∧
  (∀ code d ts dt,
     answer = Reply code (Returns (VDict d)) →
     http_error_status code = false →
     assoc "status" d = Some (VStr "OK") →
     assoc "timestamp" d = Some ts →
     outcome (fromtimestamp w ts) = Returns dt →
     HHMM (strftime_HM dt) ∧
     outcome (TimeService.get_current_time w city) =
       Returns (VDict [
         ("status", VStr "success");
         ("report",
           VStr ("The current time in " +:+ city +:+ " (" +:+ zone +:+ ") is "
                 +:+ strftime_HM dt +:+ " on " +:+ strftime_Ymd dt +:+ "."));
         ("data", VDict [
            ("city", VStr city);
            ("timezone", VStr zone);
            ("timestamp", ts);
            ("formatted_time", VStr (strftime_HM dt));
            ("formatted_date", VStr (strftime_Ymd dt))])])) ∧
  (live_time_call_fails w answer →
     outcome (TimeService.get_current_time w city) =
       Returns
         match zone_db w zone with
         | Some tz =>
             VDict [
               ("status", VStr "success");
               ("report",
                 VStr ("The current time in " +:+ city +:+ " is "
                       +:+ strftime_HM (datetime_now w tz) +:+ "."));
               ("data", VDict [
                  ("city", VStr city);
                  ("timezone", VStr zone);
                  ("formatted_time", VStr (strftime_HM (datetime_now w tz)))])]
         | None =>
             VDict [
               ("status", VStr "error");
               ("error_message",
                 VStr ("Sorry, I don't have timezone information for '" +:+ city +:+ "'."))]
         end).
Proof.
  intros Hkey Hzone answer. split; [reflexivity|].
  rewrite (get_current_time_by_table w city zone Hkey Hzone).
  split; [|split].
  - rewrite trace_try, query_by_zone_trace.
    destruct (outcome _) as [r|e]; [done|].
    unfold TimeService.except_clauses.
    repeat case_match; cbn [from_option]; by rewrite ?silent_fallback_time.
  - intros code d ts dt Hanswer Hcode Hstatus Hts Hdt.
    split; [apply strftime_HM_HHMM|].
    rewrite outcome_try.
    by rewrite (query_by_zone_ok w city (VStr zone) code d ts dt Hanswer Hcode Hstatus Hts Hdt).
  - intros Hfail.
    rewrite (query_by_zone_fails w city (VStr zone) Hfail).
    by rewrite (_get_fallback_time_known w city zone Hzone).
Qed.

Lemma time_live_listed_city_witness :
  trace (TimeService.get_current_time Worlds.live_time_ok "London")
    = [zone_request Worlds.live_time_ok (VStr "Europe/London")] ∧
  field "report" <$> outcome_value (TimeService.get_current_time Worlds.live_time_ok "London")
    = Some (Some (VStr "The current time in London (Europe/London) is 22:13 on 2023-11-14.")) ∧
  field "report" <$> outcome_value (TimeService.get_current_time Worlds.live_time_down "London")
    = Some (Some (VStr "The current time in London is 22:13.")).
Proof.
  assert (Hok := time_live_listed_city Worlds.live_time_ok "London" "Europe/London"
                   eq_refl eq_refl).
  assert (Hdown := time_live_listed_city Worlds.live_time_down "London" "Europe/London"
                     eq_refl eq_refl).
  cbv zeta in Hok, Hdown.
  destruct Hok as (_ & Htrace & Hlive & _). destruct Hdown as (_ & _ & _ & Hfallback).
  split; [exact Htrace|]. split.
  - destruct (Hlive 200 [("status", VStr "OK"); ("timestamp", VInt 1700000000)]
                (VInt 1700000000) 1700000000 eq_refl eq_refl eq_refl eq_refl eq_refl)
      as [_ Hout].
    unfold outcome_value. rewrite Hout. reflexivity.
  - unfold outcome_value. rewrite Hfallback; [reflexivity|].
    apply fails_no_reply. reflexivity.
Defined.

(** C1 as worded fails: with the credential configured and the key of
    "London" in the table, a request does go to the live endpoint, and when
    it succeeds the report is the long one, not the short one. *)
Lemma time_live_call_is_made :
  truthy (TIMEZONEDB_API_KEY (config Worlds.live_time_ok)) = true ∧
  is_Some (TimeService.FALLBACK_TIMEZONES !! city_key Worlds.live_time_ok "London") ∧
  TimeService.get_current_time Worlds.live_time_ok "London" =
    ([HttpGet "https://api.timezonedb.com/v2.1/get-time-zone"
        [("key", VStr "k"); ("format", VStr "json"); ("by", VStr "zone");
         ("zone", VStr "Europe/London")] 10],
     Returns (VDict [
       ("status", VStr "success");
       ("report", VStr "The current time in London (Europe/London) is 22:13 on 2023-11-14.");
       ("data", VDict [
          ("city", VStr "London");
          ("timezone", VStr "Europe/London");
          ("timestamp", VInt 1700000000);
          ("formatted_time", VStr "22:13");
          ("formatted_date", VStr "2023-11-14")])])) ∧
  trace (TimeService.get_current_time Worlds.live_time_ok "London") ≠ [] ∧
  ¬ ∃ r hm, outcome (TimeService.get_current_time Worlds.live_time_ok "London") = Returns r ∧
            field "report" r = Some (VStr (short_report "London" hm)).
Proof.
  split; [reflexivity|]. split; [by eexists|]. split; [reflexivity|]. split; [done|].
  intros (r & hm & Hr & Hreport). vm_compute in Hr. injection Hr as <-.
  cbn in Hreport. discriminate Hreport.
Qed.

(** ** The shape of what the resolvers return *)

Lemma layout_LookupResult_ok r : layout r → LookupResult_ok r.
Proof.
  destruct 1; unfold LookupResult_ok; cbn;
    repeat split; intros; try done; try (by eexists);
    try (by destruct H as [? [=]]); try (by destruct H0 as [? [=]]).
  by destruct H.
Qed.

Lemma layout_fallback_time w city :
  returns_only layout (TimeService._get_fallback_time w city).
Proof.
  destruct (TimeService.FALLBACK_TIMEZONES !! city_key w city) as [zone|] eqn:E.
  - rewrite (_get_fallback_time_known w city zone E).
    intros r [= <-]. destruct (zone_db w zone); constructor.
  - rewrite (_get_fallback_time_unknown w city E).
    intros r [= <-]. constructor.
Qed.

Lemma layout_query_by_zone w city zone_name :
  returns_only layout (TimeService.query_by_zone w city zone_name).
Proof.
  unfold TimeService.query_by_zone.
  do 4 (apply returns_only_bind; intros ?).
  case_match; [|apply layout_fallback_time].
  do 2 (apply returns_only_bind; intros ?).
  apply returns_only_mret. constructor.
Qed.

Lemma layout_get_current_time w city :
  returns_only layout (TimeService.get_current_time w city).
Proof.
  unfold TimeService.get_current_time. apply returns_only_try.
  - case_match; [apply layout_fallback_time|].
    do 2 (apply returns_only_bind; intros ?).
    case_match.
    + apply returns_only_bind; intros ?. apply layout_query_by_zone.
    + case_match; [apply layout_query_by_zone|].
      apply returns_only_mret. constructor.
  - intros e h. unfold TimeService.except_clauses.
    repeat case_match; intros [= <-]; apply layout_fallback_time.
Qed.

Lemma layout_mock_weather w city :
  returns_only layout (WeatherService._get_mock_weather w city).
Proof.
  unfold WeatherService._get_mock_weather.
  destruct (WeatherService.mock_weather !! _) as [r|] eqn:E.
  - destruct (mock_weather_entries _ _ E) as [report ->].
    apply returns_only_mret. constructor.
  - apply returns_only_mret. constructor.
Qed.

Lemma layout_get_weather w city :
  returns_only layout (WeatherService.get_weather w city).
Proof.
  unfold WeatherService.get_weather. apply returns_only_try.
  - case_match; [apply layout_mock_weather|].
    do 18 (apply returns_only_bind; intros ?).
    apply returns_only_mret. constructor.
  - intros e h. unfold WeatherService.except_clauses.
    repeat case_match; intros [= <-]; apply returns_only_mret; constructor.
Qed.

(** C2.  Whatever the city and whatever happens on the way (live success,
    fallback, error), a result returned by either resolver has exactly one
    of report / error_message: the report is present iff the status is
    success, the error message iff the status is error. *)
Theorem LookupResult_exactly_one (w : World) (city : string) (r : value) :
  outcome (TimeService.get_current_time w city) = Returns r ∨
  outcome (WeatherService.get_weather w city) = Returns r →
  LookupResult_ok r.
Proof.
  intros [H|H]; apply layout_LookupResult_ok.
  - exact (layout_get_current_time w city r H).
  - exact (layout_get_weather w city r H).
Qed.

Lemma LookupResult_exactly_one_witness :
  (∃ r, outcome (TimeService.get_current_time Worlds.live_time_ok "London") = Returns r ∧
        field "status" r = Some (VStr "success") ∧ LookupResult_ok r) ∧
  (∃ r, outcome (WeatherService.get_weather Worlds.live_weather_timeout "London") = Returns r ∧
        field "status" r = Some (VStr "error") ∧ LookupResult_ok r).
Proof.
  split; eexists; (split; [reflexivity|]); (split; [reflexivity|]).
  - apply (LookupResult_exactly_one Worlds.live_time_ok "London"). left. reflexivity.
  - apply (LookupResult_exactly_one Worlds.live_weather_timeout "London"). right. reflexivity.
Defined.

(** ** The weather resolver without a credential *)

Section WeatherMock.

Import WeatherService.

Variable w : World.
Variable city : string.

Lemma get_weather_no_credential :
  truthy (OPENWEATHER_API_KEY (config w)) = false →
  get_weather w city = _get_mock_weather w city.
Proof.
  intros H. unfold get_weather, _get_mock_weather. rewrite H. cbn [negb].
  by case_match.
Qed.

Lemma _get_mock_weather_unlisted :
  mock_weather !! city_key w city = None →
  _get_mock_weather w city =
    ([], Returns (VDict [
           ("status", VStr "error");
           ("error_message",
             VStr ("Sorry, I don't have weather information for '" +:+ city +:+ "'."))])).
Proof.
  intros H. unfold _get_mock_weather. fold (city_key w city). by rewrite H.
Qed.

Lemma _get_mock_weather_listed r :
  mock_weather !! city_key w city = Some r →
  _get_mock_weather w city = ([], Returns r).
Proof.
  intros H. unfold _get_mock_weather. fold (city_key w city). by rewrite H.
Qed.

(** In mock mode a city outside the table gets a status error result whose
    message names the city. *)
Lemma get_weather_mock_unlisted :
  truthy (OPENWEATHER_API_KEY (config w)) = false →
  mock_weather !! city_key w city = None →
  ∃ message,
    get_weather w city =
      ([], Returns (VDict [("status", VStr "error"); ("error_message", VStr message)])) ∧
    mentions message city.
Proof.
  intros Hkey Hcity. eexists. split.
  - rewrite (get_weather_no_credential Hkey). by apply _get_mock_weather_unlisted.
  - by exists "Sorry, I don't have weather information for '", "'.".
Qed.

End WeatherMock.

(** C9.  In mock mode (no live-weather credential), the result for a city
    of the three-entry table has status success and consists of the status
    and report entries only: there is no data entry. *)
Theorem mock_weather_has_no_data (w : World) (city : string) :
  truthy (OPENWEATHER_API_KEY (config w)) = false →
  city_key w city ∈ ["newyork"; "london"; "tokyo"] →
  ∃ r, WeatherService.get_weather w city = ([], Returns r) ∧
       field "status" r = Some (VStr "success") ∧
       keys r = ["status"; "report"] ∧
       field "data" r = None.
Proof.
  intros Hkey [r Hr]%mock_weather_listed.
  exists r. rewrite (get_weather_no_credential w city Hkey).
  split; [by apply _get_mock_weather_listed|].
  by destruct (mock_weather_entries _ _ Hr) as [report ->].
Qed.

Lemma mock_weather_has_no_data_witness :
  truthy (OPENWEATHER_API_KEY (config Worlds.bare)) = false ∧
  city_key Worlds.bare "Tokyo" ∈ ["newyork"; "london"; "tokyo"] ∧
  ∃ r, WeatherService.get_weather Worlds.bare "Tokyo" = ([], Returns r) ∧
       field "status" r = Some (VStr "success") ∧
       keys r = ["status"; "report"] ∧
       field "data" r = None.
Proof.
  assert (Hkey : truthy (OPENWEATHER_API_KEY (config Worlds.bare)) = false)
    by reflexivity.
  assert (Hcity : city_key Worlds.bare "Tokyo" ∈ ["newyork"; "london"; "tokyo"]).
  { change (city_key Worlds.bare "Tokyo") with "tokyo".
    apply list_elem_of_further, list_elem_of_further, list_elem_of_here. }
  split; [exact Hkey|]. split; [exact Hcity|].
  exact (mock_weather_has_no_data Worlds.bare "Tokyo" Hkey Hcity).
Defined.

(** The degree sign is the two bytes C2 B0; the canned sentences carry the
    three bytes EC A7 B8 in its place. *)
Lemma degree_sign_bytes :
  "°" = String (ascii_of_nat 194) (String (ascii_of_nat 176) EmptyString) ∧
  "째" = String (ascii_of_nat 236) (String (ascii_of_nat 167)
          (String (ascii_of_nat 184) EmptyString)).
Proof. split; reflexivity. Qed.

(** C5, at city "London" with no credential.  The resolver returns the
    sentence of its table, whose temperature unit is not the degree sign:
    the report differs from "It's cloudy in London with a temperature of
    55°F.". *)
Theorem mock_weather_london_report :
  WeatherService.get_weather Worlds.bare "London" =
    ([], Returns (VDict [
           ("status", VStr "success");
           ("report",
             VStr ("It's cloudy in London with a temperature of 55"
                   +:+ String (ascii_of_nat 236) (String (ascii_of_nat 167)
                         (String (ascii_of_nat 184) EmptyString))
                   +:+ "F."))])) ∧
  field "report" <$> outcome_value (WeatherService.get_weather Worlds.bare "London")
    ≠ Some (Some (VStr "It's cloudy in London with a temperature of 55°F.")).
Proof. split; [reflexivity|]. vm_compute. discriminate. Qed.

(** ** The weather resolver with a credential *)

Section WeatherLive.

Import WeatherService.

Variable w : World.
Variable city : string.

Hypothesis credential : truthy (OPENWEATHER_API_KEY (config w)) = true.

(** The live call is attempted exactly once, whatever comes back. *)
Lemma get_weather_live_trace :
  trace (get_weather w city) = [weather_request w city].
Proof.
  unfold get_weather. rewrite credential. cbn [negb].
  rewrite trace_try, trace_bind, outcome_bind.
  change (trace (requests_get _ _ _ _)) with [weather_request w city].
  assert (Hhandlers : ∀ e, from_option trace [] (except_clauses city e) = []).
  { intros e. unfold except_clauses. by repeat case_match. }
  destruct (outcome (requests_get _ _ _ _)) as [response|e];
    [|by rewrite Hhandlers].
  match goal with
  | |- (_ ++ trace ?rest) ++ _ = _ => assert (Hrest : silent rest)
  end.
  { apply silent_bind; [apply silent_raise_for_status|]. intros _.
    apply silent_bind; [apply silent_json|]. intros data.
    do 15 (apply silent_bind; [apply silent_lift|]; intros ?).
    apply silent_mret. }
  rewrite Hrest. destruct (outcome _); [done|]. by rewrite Hhandlers.
Qed.

(** A network error, a timeout or an HTTP error status: the "Unable to
    fetch" result is returned, nothing is raised. *)
Lemma get_weather_network_error e :
  http w BASE_URL (ev_params (weather_request w city)) = NoReply e →
  is_RequestException e = true →
  get_weather w city =
    ([weather_request w city],
     Returns (VDict [
       ("status", VStr "error");
       ("error_message",
         VStr ("Unable to fetch weather data for '" +:+ city
               +:+ "'. Please check the city name and try again."))])).
Proof.
  intros Hreply He. cbn [ev_params weather_request] in Hreply.
  unfold get_weather. rewrite credential. cbn [negb].
  unfold requests_get. rewrite Hreply.
  cbn [mbind Eff_bind try_except]. unfold except_clauses. rewrite He.
  reflexivity.
Qed.

Lemma get_weather_http_error code body :
  http w BASE_URL (ev_params (weather_request w city)) = Reply code body →
  http_error_status code = true →
  get_weather w city =
    ([weather_request w city],
     Returns (VDict [
       ("status", VStr "error");
       ("error_message",
         VStr ("Unable to fetch weather data for '" +:+ city
               +:+ "'. Please check the city name and try again."))])).
Proof.
  intros Hreply Hcode. cbn [ev_params weather_request] in Hreply.
  unfold get_weather. rewrite credential. cbn [negb].
  unfold requests_get. rewrite Hreply.
  cbn [mbind Eff_bind try_except raise_for_status]. rewrite Hcode.
  reflexivity.
Qed.

(** A reply that is a JSON object without the "name" entry: the "invalid
    data" result is returned. *)
Lemma get_weather_no_name code d :
  http w BASE_URL (ev_params (weather_request w city)) = Reply code (Returns (VDict d)) →
  http_error_status code = false →
  assoc "name" d = None →
  get_weather w city =
    ([weather_request w city],
     Returns (VDict [
       ("status", VStr "error");
       ("error_message", VStr ("Received invalid weather data for '" +:+ city +:+ "'."))])).
Proof.
  intros Hreply Hcode Hname. cbn [ev_params weather_request] in Hreply.
  unfold get_weather. rewrite credential. cbn [negb].
  unfold requests_get. rewrite Hreply.
  cbn [mbind Eff_bind try_except raise_for_status]. rewrite Hcode.
  cbn [mbind Eff_bind mret Eff_ret json lift getitem]. rewrite Hname.
  reflexivity.
Qed.

End WeatherLive.

(** C6, where it fails.  With a credential, when the reply is a JSON object
    whose "weather" entry is an empty list, the resolver raises IndexError
    to its caller instead of returning the "invalid data" result. *)
Theorem weather_empty_list_raises :
  WeatherService.get_weather Worlds.live_weather_empty_list "London" =
    ([HttpGet "https://api.openweathermap.org/data/2.5/weather"
        [("q", VStr "London"); ("appid", VStr "k"); ("units", VStr "imperial")] 10],
     Raises IndexError) ∧
  WeatherService.get_weather Worlds.live_weather_no_wind "London" =
    ([HttpGet "https://api.openweathermap.org/data/2.5/weather"
        [("q", VStr "London"); ("appid", VStr "k"); ("units", VStr "imperial")] 10],
     Returns (VDict [
       ("status", VStr "error");
       ("error_message", VStr "Received invalid weather data for 'London'.")])) ∧
  WeatherService.get_weather Worlds.live_weather_timeout "London" =
    ([HttpGet "https://api.openweathermap.org/data/2.5/weather"
        [("q", VStr "London"); ("appid", VStr "k"); ("units", VStr "imperial")] 10],
     Returns (VDict [
       ("status", VStr "error");
       ("error_message",
         VStr "Unable to fetch weather data for 'London'. Please check the city name and try again.")])).
Proof. repeat split; reflexivity. Qed.

(** C7, where it fails.  With a credential and the key of "London" in the
    table, a reply whose timestamp is a string makes the resolver raise
    TypeError, and a reply that is a JSON array makes it raise
    AttributeError: neither is converted to the fallback path. *)
Theorem time_live_uncaught :
  TimeService.get_current_time Worlds.live_time_text_timestamp "London" =
    ([HttpGet "https://api.timezonedb.com/v2.1/get-time-zone"
        [("key", VStr "k"); ("format", VStr "json"); ("by", VStr "zone");
         ("zone", VStr "Europe/London")] 10],
     Raises TypeError) ∧
  TimeService.get_current_time Worlds.live_time_array "London" =
    ([HttpGet "https://api.timezonedb.com/v2.1/get-time-zone"
        [("key", VStr "k"); ("format", VStr "json"); ("by", VStr "zone");
         ("zone", VStr "Europe/London")] 10],
     Raises AttributeError).
Proof. split; reflexivity. Qed.

(** ** Two calls at different times *)

Lemma append_assoc (a b c : string) : (a +:+ b) +:+ c = a +:+ b +:+ c.
Proof.
  induction a as [|x a IH]; [done|].
  change (String x ((a +:+ b) +:+ c) = String x (a +:+ b +:+ c)).
  by rewrite IH.
Qed.

Lemma short_report_same_but_HHMM city hm1 hm2 :
  HHMM hm1 → HHMM hm2 →
  same_but_HHMM (short_report city hm1) (short_report city hm2).
Proof.
  intros H1 H2.
  exists ("The current time in " +:+ city +:+ " is "), hm1, hm2, ".".
  unfold short_report. by rewrite !append_assoc.
Qed.

(** C8.  With no credential configured, two calls with the same city, made
    at two readings of the clock, agree: the weather results are equal, and
    the time results have the same status, the same error message, and
    reports that are equal except for the HH:MM reading. *)
Theorem no_credential_repeatable (w : World) (t1 t2 : Z) (city : string) :
  truthy (OPENWEATHER_API_KEY (config w)) = false →
  truthy (TIMEZONEDB_API_KEY (config w)) = false →
  WeatherService.get_weather (set_time w t1) city =
    WeatherService.get_weather (set_time w t2) city ∧
  ∃ r1 r2,
    TimeService.get_current_time (set_time w t1) city = ([], Returns r1) ∧
    TimeService.get_current_time (set_time w t2) city = ([], Returns r2) ∧
    field "status" r1 = field "status" r2 ∧
    field "error_message" r1 = field "error_message" r2 ∧
    reports_agree r1 r2.
Proof.
  intros Hweather Htime. split.
  - by rewrite !get_weather_no_credential.
  - rewrite !get_current_time_no_credential by exact Htime.
    destruct (TimeService.FALLBACK_TIMEZONES !! city_key w city) as [zone|] eqn:E.
    + rewrite (_get_fallback_time_known (set_time w t1) city zone E).
      rewrite (_get_fallback_time_known (set_time w t2) city zone E).
      cbn [zone_db set_time].
      destruct (zone_db w zone) as [tz|]; do 2 eexists;
        (split; [reflexivity|]); (split; [reflexivity|]); repeat split.
      apply short_report_same_but_HHMM; apply strftime_HM_HHMM.
    + rewrite (_get_fallback_time_unknown (set_time w t1) city E).
      rewrite (_get_fallback_time_unknown (set_time w t2) city E).
      do 2 eexists. by repeat split.
Qed.

Lemma no_credential_repeatable_witness :
  truthy (OPENWEATHER_API_KEY (config Worlds.bare)) = false ∧
  truthy (TIMEZONEDB_API_KEY (config Worlds.bare)) = false ∧
  WeatherService.get_weather (set_time Worlds.bare 1700000000) "London" =
    WeatherService.get_weather (set_time Worlds.bare 1700005400) "London" ∧
  ∃ r1 r2,
    TimeService.get_current_time (set_time Worlds.bare 1700000000) "London" = ([], Returns r1) ∧
    TimeService.get_current_time (set_time Worlds.bare 1700005400) "London" = ([], Returns r2) ∧
    field "status" r1 = field "status" r2 ∧
    field "error_message" r1 = field "error_message" r2 ∧
    reports_agree r1 r2.
Proof.
  split; [reflexivity|]. split; [reflexivity|].
  exact (no_credential_repeatable Worlds.bare 1700000000 1700005400 "London"
           eq_refl eq_refl).
Defined.

(** ** The configuration check *)

Lemma truthy_false o : truthy o = false ↔ o = None ∨ o = Some "".
Proof.
  destruct o as [s|]; cbn.
  - rewrite negb_false_iff, String.eqb_eq. split.
    + intros ->. by right.
    + by intros [[=]|[= ->]].
  - split; [by left|done].
Qed.

Lemma validate_config_filter w :
  validate_config (config w) =
  filter (λ name, truthy (getenv w name) = false) required_settings.
Proof.
  unfold validate_config, required_settings. cbn [config GOOGLE_API_KEY
    GOOGLE_MAPS_PLATFORM_API_KEY OPIK_API_KEY OPIK_WORKSPACE].
  rewrite !filter_cons, filter_nil.
  destruct (truthy (getenv w "GOOGLE_API_KEY")),
           (truthy (getenv w "GOOGLE_MAPS_PLATFORM_API_KEY")),
           (truthy (getenv w "OPIK_API_KEY")),
           (truthy (getenv w "OPIK_WORKSPACE")); reflexivity.
Qed.

(** C10.  [validate_config] returns, in the order it checks them, exactly
    those of GOOGLE_API_KEY, GOOGLE_MAPS_PLATFORM_API_KEY, OPIK_API_KEY and
    OPIK_WORKSPACE whose environment variable is unset or empty.
    OPENWEATHER_API_KEY and TIMEZONEDB_API_KEY are never in the list, so
    when the four are set and those two are not, the check finds nothing
    missing, the sidebar shows "Configuration OK", and both resolvers run
    on their mock / fallback tables. *)
Theorem validate_config_checks_four (w : World) :
  validate_config (config w) =
    filter (λ name, truthy (getenv w name) = false)
      ["GOOGLE_API_KEY"; "GOOGLE_MAPS_PLATFORM_API_KEY"; "OPIK_API_KEY"; "OPIK_WORKSPACE"] ∧
  (∀ name,
     name ∈ validate_config (config w) ↔
     name ∈ ["GOOGLE_API_KEY"; "GOOGLE_MAPS_PLATFORM_API_KEY"; "OPIK_API_KEY"; "OPIK_WORKSPACE"] ∧
     (getenv w name = None ∨ getenv w name = Some "")) ∧
  ("OPENWEATHER_API_KEY" ∉ validate_config (config w)) ∧
  ("TIMEZONEDB_API_KEY" ∉ validate_config (config w)) ∧
  (validate_config (config w) = [] →
   truthy (OPENWEATHER_API_KEY (config w)) = false →
   truthy (TIMEZONEDB_API_KEY (config w)) = false →
   app.check_configuration w = None ∧
   is_production_ready (config w) = true ∧
   app.display_sidebar_status w = app.st_success "✅ Configuration OK" ∧
   ∀ city,
     WeatherService.get_weather w city = WeatherService._get_mock_weather w city ∧
     TimeService.get_current_time w city = TimeService._get_fallback_time w city).
Proof.
  assert (Hmem : ∀ name,
     name ∈ validate_config (config w) ↔
     name ∈ required_settings ∧ (getenv w name = None ∨ getenv w name = Some "")).
  { intros name. rewrite validate_config_filter, list_elem_of_filter, truthy_false.
    tauto. }
  split; [apply validate_config_filter|]. split; [exact Hmem|].
  split; [|split].
  - rewrite Hmem. intros [Hin _]. revert Hin. unfold required_settings.
    rewrite !elem_of_cons, elem_of_nil. by intros [?|[?|[?|[?|[]]]]].
  - rewrite Hmem. intros [Hin _]. revert Hin. unfold required_settings.
    rewrite !elem_of_cons, elem_of_nil. by intros [?|[?|[?|[?|[]]]]].
  - intros Hnone Hweather Htime.
    unfold app.display_sidebar_status, app.check_configuration, is_production_ready.
    rewrite Hnone. repeat split.
    + by apply get_weather_no_credential.
    + by apply get_current_time_no_credential.
Qed.

Lemma validate_config_checks_four_witness :
  validate_config (config Worlds.checked_only) = [] ∧
  truthy (OPENWEATHER_API_KEY (config Worlds.checked_only)) = false ∧
  truthy (TIMEZONEDB_API_KEY (config Worlds.checked_only)) = false ∧
  app.check_configuration Worlds.checked_only = None ∧
  is_production_ready (config Worlds.checked_only) = true ∧
  app.display_sidebar_status Worlds.checked_only = app.st_success "✅ Configuration OK" ∧
  ∀ city,
    WeatherService.get_weather Worlds.checked_only city =
      WeatherService._get_mock_weather Worlds.checked_only city ∧
    TimeService.get_current_time Worlds.checked_only city =
      TimeService._get_fallback_time Worlds.checked_only city.
Proof.
  split; [reflexivity|]. split; [reflexivity|]. split; [reflexivity|].
  exact (proj2 (proj2 (proj2 (proj2 (validate_config_checks_four Worlds.checked_only))))
           eq_refl eq_refl eq_refl).
Defined.

(** * Further properties of the resolvers *)

(** ** Which exceptions leave a resolver *)

Lemma outcome_try_raises {A} (m : Eff A) handlers e :
  (∀ e' k, handlers e' = Some k → ∃ a, outcome k = Returns a) →
  outcome (try_except m handlers) = Raises e →
  outcome m = Raises e ∧ handlers e = None.
Proof.
  intros Hreturn. rewrite outcome_try.
  destruct (outcome m) as [a|e'] eqn:Em; [done|].
  destruct (handlers e') as [k|] eqn:Eh; cbn.
  - destruct (Hreturn e' k Eh) as [a ->]. done.
  - by intros [= ->].
Qed.

Lemma weather_clauses_return city e k :
  WeatherService.except_clauses city e = Some k → ∃ a, outcome k = Returns a.
Proof.
  unfold WeatherService.except_clauses.
  repeat case_match; intros [= <-]; by eexists.
Qed.

Lemma weather_clauses_none city e :
  WeatherService.except_clauses city e = None → caught e = false.
Proof.
  unfold WeatherService.except_clauses, caught.
  by destruct (is_RequestException e), (is_KeyError e), (is_ValueError e).
Qed.

Lemma time_clauses_return w city e k :
  TimeService.except_clauses w city e = Some k → ∃ a, outcome k = Returns a.
Proof.
  unfold TimeService.except_clauses.
  destruct (_get_fallback_time_total w city) as [r Hr].
  repeat case_match; intros [= <-]; rewrite Hr; by eexists.
Qed.

Lemma time_clauses_none w city e :
  TimeService.except_clauses w city e = None → caught e = false.
Proof.
  unfold TimeService.except_clauses, caught.
  by destruct (is_RequestException e), (is_KeyError e), (is_ValueError e).
Qed.

(** X1.  When [get_weather] raises, a live-weather credential is configured
    and the exception is none of those its [except] clauses name: no
    RequestException, KeyError or ValueError ever reaches the caller. *)
Theorem get_weather_raises_only_uncaught (w : World) (city : string) (e : exn) :
  outcome (WeatherService.get_weather w city) = Raises e →
  caught e = false ∧ truthy (OPENWEATHER_API_KEY (config w)) = true.
Proof.
  intros H. split.
  - apply (outcome_try_raises _ _ _ (weather_clauses_return city)) in H as [_ H].
    by apply (weather_clauses_none city).
  - destruct (truthy (OPENWEATHER_API_KEY (config w))) eqn:E; [done|].
    rewrite (get_weather_no_credential w city E) in H.
    unfold WeatherService._get_mock_weather in H. by case_match.
Qed.

Lemma get_weather_raises_only_uncaught_witness :
  outcome (WeatherService.get_weather Worlds.live_weather_empty_list "London")
    = Raises IndexError ∧
  caught IndexError = false ∧
  truthy (OPENWEATHER_API_KEY (config Worlds.live_weather_empty_list)) = true.
Proof.
  split; [reflexivity|].
  exact (get_weather_raises_only_uncaught Worlds.live_weather_empty_list "London"
           IndexError eq_refl).
Defined.

(** X2.  When [get_current_time] raises, a live-time credential is
    configured, the key of the city is in the fallback table, and the
    exception is none of those the [except] clauses name. *)
Theorem get_current_time_raises_only_uncaught (w : World) (city : string) (e : exn) :
  outcome (TimeService.get_current_time w city) = Raises e →
  caught e = false ∧
  truthy (TIMEZONEDB_API_KEY (config w)) = true ∧
  is_Some (TimeService.FALLBACK_TIMEZONES !! city_key w city).
Proof.
  intros H.
  assert (Hkey : truthy (TIMEZONEDB_API_KEY (config w)) = true).
  { destruct (truthy (TIMEZONEDB_API_KEY (config w))) eqn:E; [done|].
    rewrite (get_current_time_no_credential w city E) in H.
    by destruct (_get_fallback_time_total w city) as [r Hr]; rewrite Hr in H. }
  split; [|split; [exact Hkey|]].
  - apply (outcome_try_raises _ _ _ (time_clauses_return w city)) in H as [_ H].
    by apply (time_clauses_none w city).
  - destruct (TimeService.FALLBACK_TIMEZONES !! city_key w city) as [zone|] eqn:E;
      [by eexists|].
    unfold TimeService.get_current_time in H. rewrite Hkey in H.
    fold (city_key w city) in H. rewrite E in H. cbn [negb] in H.
    unfold TimeService._get_timezone_from_api in H.
    cbn [try_except mret Eff_ret] in H.
    rewrite mret_bind in H. cbn [py_bool] in H. rewrite mret_bind in H.
    done.
Qed.

Lemma get_current_time_raises_only_uncaught_witness :
  outcome (TimeService.get_current_time Worlds.live_time_array "London")
    = Raises AttributeError ∧
  caught AttributeError = false ∧
  truthy (TIMEZONEDB_API_KEY (config Worlds.live_time_array)) = true ∧
  is_Some (TimeService.FALLBACK_TIMEZONES !! city_key Worlds.live_time_array "London").
Proof.
  split; [reflexivity|].
  exact (get_current_time_raises_only_uncaught Worlds.live_time_array "London"
           AttributeError eq_refl).
Defined.

(** ** How many requests are sent *)

Lemma silent_mock_weather w city : silent (WeatherService._get_mock_weather w city).
Proof. unfold WeatherService._get_mock_weather. by case_match. Qed.

(** X3.  [get_weather] sends one request to the weather endpoint when a
    credential is configured (with q = the city as typed, appid = the
    credential, units = imperial, timeout 10) whatever the outcome, and no
    request at all when no credential is configured. *)
Theorem get_weather_requests (w : World) (city : string) :
  trace (WeatherService.get_weather w city) =
    if truthy (OPENWEATHER_API_KEY (config w)) then
      [HttpGet "https://api.openweathermap.org/data/2.5/weather"
         [("q", VStr city);
          ("appid", of_option (OPENWEATHER_API_KEY (config w)));
          ("units", VStr "imperial")] 10]
    else [].
Proof.
  destruct (truthy (OPENWEATHER_API_KEY (config w))) eqn:E.
  - exact (get_weather_live_trace w city E).
  - rewrite (get_weather_no_credential w city E). apply silent_mock_weather.
Qed.

(** With a credential and a key outside the table, the answer is the error
    result and nothing is sent. *)
Lemma get_current_time_unlisted_with_credential w city :
  truthy (TIMEZONEDB_API_KEY (config w)) = true →
  TimeService.FALLBACK_TIMEZONES !! city_key w city = None →
  TimeService.get_current_time w city =
    ([], Returns (TimeService.no_timezone_information city)).
Proof.
  intros Hkey Hzone. unfold TimeService.get_current_time. rewrite Hkey.
  fold (city_key w city). rewrite Hzone. cbn [negb].
  unfold TimeService._get_timezone_from_api. cbn [try_except mret Eff_ret].
  rewrite mret_bind. cbn [py_bool]. by rewrite mret_bind.
Qed.

(** X4.  [get_current_time] sends at most one request: one to the
    time-by-zone endpoint, for the zone of the table, when a credential is
    configured and the key of the city is in the table; none otherwise. *)
Theorem get_current_time_requests (w : World) (city : string) :
  trace (TimeService.get_current_time w city) =
    if truthy (TIMEZONEDB_API_KEY (config w)) then
      match TimeService.FALLBACK_TIMEZONES !! city_key w city with
      | Some zone =>
          [HttpGet "https://api.timezonedb.com/v2.1/get-time-zone"
             [("key", of_option (TIMEZONEDB_API_KEY (config w)));
              ("format", VStr "json"); ("by", VStr "zone"); ("zone", VStr zone)] 10]
      | None => []
      end
    else [].
Proof.
  destruct (truthy (TIMEZONEDB_API_KEY (config w))) eqn:Hkey.
  - destruct (TimeService.FALLBACK_TIMEZONES !! city_key w city) as [zone|] eqn:Hzone.
    + rewrite (get_current_time_by_table w city zone Hkey Hzone).
      rewrite trace_try, query_by_zone_trace.
      destruct (outcome _) as [r|e]; [done|].
      unfold TimeService.except_clauses.
      repeat case_match; cbn [from_option]; by rewrite ?silent_fallback_time.
    + by rewrite (get_current_time_unlisted_with_credential w city Hkey Hzone).
  - rewrite (get_current_time_no_credential w city Hkey). apply silent_fallback_time.
Qed.

(** X5.  With a live-time credential configured, a city whose key is not in
    the fallback table gets the status error result
    "Sorry, I don't have timezone information for '{city}'." at once: nothing
    is sent to the live endpoint. *)
Theorem time_live_unlisted_city (w : World) (city : string) :
  truthy (TIMEZONEDB_API_KEY (config w)) = true →
  TimeService.FALLBACK_TIMEZONES !! city_key w city = None →
  TimeService.get_current_time w city =
    ([], Returns (VDict [
           ("status", VStr "error");
           ("error_message",
             VStr ("Sorry, I don't have timezone information for '" +:+ city +:+ "'."))])).
Proof. apply get_current_time_unlisted_with_credential. Qed.

Lemma time_live_unlisted_city_witness :
  truthy (TIMEZONEDB_API_KEY (config Worlds.live_time_ok)) = true ∧
  TimeService.FALLBACK_TIMEZONES !! city_key Worlds.live_time_ok "Nowhereville" = None ∧
  TimeService.get_current_time Worlds.live_time_ok "Nowhereville" =
    ([], Returns (VDict [
           ("status", VStr "error");
           ("error_message",
             VStr "Sorry, I don't have timezone information for 'Nowhereville'.")])).
Proof.
  split; [reflexivity|]. split; [reflexivity|].
  exact (time_live_unlisted_city Worlds.live_time_ok "Nowhereville" eq_refl eq_refl).
Defined.

(** ** What the live weather call yields *)

Lemma eff_eta {A} (m : Eff A) : m = (trace m, outcome m).
Proof. by destruct m. Qed.

Section WeatherReply.

Import WeatherService.

Variable w : World.
Variable city : string.

Hypothesis credential : truthy (OPENWEATHER_API_KEY (config w)) = true.

(** Up to the decoded body. *)
Ltac decode Hreply Hcode :=
  cbn [ev_params weather_request] in Hreply;
  unfold get_weather; rewrite credential; cbn [negb];
  rewrite outcome_try; unfold requests_get;
  rewrite outcome_bind; cbn [outcome snd]; rewrite Hreply;
  rewrite outcome_bind; cbn [raise_for_status]; rewrite Hcode;
  cbn [outcome snd mret Eff_ret];
  rewrite outcome_bind; cbn [json lift outcome snd].

(** One subscription whose result is known. *)
Ltac read H := rewrite outcome_bind; cbn [outcome snd lift]; rewrite ?H.

Lemma get_weather_outcome_success code d v_name sys v_country main v_temp first rest
    description v_humidity wind v_speed v_pressure :
  http w BASE_URL (ev_params (weather_request w city)) = Reply code (Returns (VDict d)) →
  http_error_status code = false →
  assoc "name" d = Some v_name →
  assoc "sys" d = Some (VDict sys) →
  assoc "country" sys = Some v_country →
  assoc "main" d = Some (VDict main) →
  assoc "temp" main = Some v_temp →
  assoc "weather" d = Some (VList (VDict first :: rest)) →
  assoc "description" first = Some (VStr description) →
  assoc "humidity" main = Some v_humidity →
  assoc "wind" d = Some (VDict wind) →
  assoc "speed" wind = Some v_speed →
  assoc "pressure" main = Some v_pressure →
  outcome (get_weather w city) =
    Returns (VDict [
      ("status", VStr "success");
      ("report", VStr (
         "The weather in " +:+ py_str w v_name +:+ ", " +:+ py_str w v_country
         +:+ " is " +:+ str_capitalize w description +:+ " with a temperature of "
         +:+ py_str w v_temp +:+ "째F. "
         +:+ "Humidity: " +:+ py_str w v_humidity +:+ "%, Wind: "
         +:+ py_str w v_speed +:+ " mph, "
         +:+ "Pressure: " +:+ py_str w v_pressure +:+ " hPa."));
      ("data", VDict [
         ("status", VStr "success");
         ("city", v_name);
         ("country", v_country);
         ("temperature", v_temp);
         ("description", VStr (str_capitalize w description));
         ("humidity", v_humidity);
         ("wind_speed", v_speed);
         ("pressure", v_pressure)])]).
Proof.
  intros Hreply Hcode Hname Hsys Hcountry Hmain Htemp Hweather Hdescription
    Hhumidity Hwind Hspeed Hpressure.
  decode Hreply Hcode.
  assert (G1 : getitem (VDict d) "name" = Returns v_name) by (cbn; by rewrite Hname).
  assert (G2 : getitem (VDict d) "sys" = Returns (VDict sys)) by (cbn; by rewrite Hsys).
  assert (G3 : getitem (VDict sys) "country" = Returns v_country)
    by (cbn; by rewrite Hcountry).
  assert (G4 : getitem (VDict d) "main" = Returns (VDict main)) by (cbn; by rewrite Hmain).
  assert (G5 : getitem (VDict main) "temp" = Returns v_temp) by (cbn; by rewrite Htemp).
  assert (G6 : getitem (VDict d) "weather" = Returns (VList (VDict first :: rest)))
    by (cbn; by rewrite Hweather).
  assert (G7 : getitem_int (VList (VDict first :: rest)) 0 = Returns (VDict first)).
  { unfold getitem_int, index. cbn [length].
    rewrite Nat2Z.inj_succ. 
    replace ((0 <=? 0) && (0 <? Z.succ (Z.of_nat (length rest)))) with true; [done|].
    symmetry. apply andb_true_iff. split; [done|]. apply Z.ltb_lt. lia. }
  assert (G8 : getitem (VDict first) "description" = Returns (VStr description))
    by (cbn; by rewrite Hdescription).
  assert (G9 : getitem (VDict main) "humidity" = Returns v_humidity)
    by (cbn; by rewrite Hhumidity).
  assert (G10 : getitem (VDict d) "wind" = Returns (VDict wind)) by (cbn; by rewrite Hwind).
  assert (G11 : getitem (VDict wind) "speed" = Returns v_speed) by (cbn; by rewrite Hspeed).
  assert (G12 : getitem (VDict main) "pressure" = Returns v_pressure)
    by (cbn; by rewrite Hpressure).
  read G1. read G2. read G3. read G4. read G5. read G6. read G7. read G8.
  rewrite outcome_bind. cbn [outcome snd lift capitalize].
  read G4. read G9. read G10. read G11. read G4. read G12.
  reflexivity.
Qed.

Lemma get_weather_outcome_not_json code e :
  http w BASE_URL (ev_params (weather_request w city)) = Reply code (Raises e) →
  http_error_status code = false →
  outcome (get_weather w city) =
    from_option outcome (Raises e) (except_clauses city e).
Proof. intros Hreply Hcode. by decode Hreply Hcode. Qed.

Lemma get_weather_outcome_not_object code data :
  http w BASE_URL (ev_params (weather_request w city)) = Reply code (Returns data) →
  http_error_status code = false →
  (∀ d, data ≠ VDict d) →
  outcome (get_weather w city) = Raises TypeError.
Proof.
  intros Hreply Hcode Hdata. decode Hreply Hcode.
  assert (G : getitem data "name" = Raises TypeError).
  { destruct data; try done. by destruct (Hdata d). }
  by read G.
Qed.

End WeatherReply.

(** X6.  With a credential, when the endpoint answers without an HTTP error
    status (no 4xx, no 5xx) with a JSON object
    that has the entries name, sys.country, main.temp, main.humidity,
    main.pressure, wind.speed and a non-empty weather list whose first
    element has a string description, [get_weather] returns status success,
    the report built from those entries (the city and country as the
    endpoint names them, the description capitalized) and a data entry
    holding the eight values. *)
Theorem get_weather_live_success (w : World) (city : string) (code : Z)
    (d sys main first wind : list (string * value)) (rest : list value)
    (v_name v_country v_temp v_humidity v_speed v_pressure : value)
    (description : string) :
  truthy (OPENWEATHER_API_KEY (config w)) = true →
  http w WeatherService.BASE_URL (ev_params (weather_request w city))
    = Reply code (Returns (VDict d)) →
  http_error_status code = false →
  assoc "name" d = Some v_name →
  assoc "sys" d = Some (VDict sys) →
  assoc "country" sys = Some v_country →
  assoc "main" d = Some (VDict main) →
  assoc "temp" main = Some v_temp →
  assoc "weather" d = Some (VList (VDict first :: rest)) →
  assoc "description" first = Some (VStr description) →
  assoc "humidity" main = Some v_humidity →
  assoc "wind" d = Some (VDict wind) →
  assoc "speed" wind = Some v_speed →
  assoc "pressure" main = Some v_pressure →
  WeatherService.get_weather w city =
    ([weather_request w city],
     Returns (VDict [
       ("status", VStr "success");
       ("report", VStr (
          "The weather in " +:+ py_str w v_name +:+ ", " +:+ py_str w v_country
          +:+ " is " +:+ str_capitalize w description +:+ " with a temperature of "
          +:+ py_str w v_temp +:+ "째F. "
          +:+ "Humidity: " +:+ py_str w v_humidity +:+ "%, Wind: "
          +:+ py_str w v_speed +:+ " mph, "
          +:+ "Pressure: " +:+ py_str w v_pressure +:+ " hPa."));
       ("data", VDict [
          ("status", VStr "success");
          ("city", v_name);
          ("country", v_country);
          ("temperature", v_temp);
          ("description", VStr (str_capitalize w description));
          ("humidity", v_humidity);
          ("wind_speed", v_speed);
          ("pressure", v_pressure)])])).
Proof.
  intros Hkey Hreply Hcode **.
  rewrite (eff_eta (WeatherService.get_weather w city)).
  rewrite (get_weather_live_trace w city Hkey).
  by erewrite get_weather_outcome_success.
Qed.

Lemma get_weather_live_success_witness :
  WeatherService.get_weather Worlds.live_weather_ok "London" =
    ([weather_request Worlds.live_weather_ok "London"],
     Returns (VDict [
       ("status", VStr "success");
       ("report", VStr (
          "The weather in London, GB is Overcast clouds with a temperature of 55째F. "
          +:+ "Humidity: 80%, Wind: 3 mph, Pressure: 1012 hPa."));
       ("data", VDict [
          ("status", VStr "success");
          ("city", VStr "London");
          ("country", VStr "GB");
          ("temperature", VInt 55);
          ("description", VStr "Overcast clouds");
          ("humidity", VInt 80);
          ("wind_speed", VInt 3);
          ("pressure", VInt 1012)])])).
Proof.
  exact (get_weather_live_success Worlds.live_weather_ok "London" 200
           _ [("country", VStr "GB")]
           [("temp", VInt 55); ("humidity", VInt 80); ("pressure", VInt 1012)]
           [("description", VStr "overcast clouds")]
           [("speed", VInt 3)] []
           (VStr "London") (VStr "GB") (VInt 55) (VInt 80) (VInt 3) (VInt 1012)
           "overcast clouds"
           eq_refl eq_refl eq_refl eq_refl eq_refl eq_refl eq_refl eq_refl eq_refl
           eq_refl eq_refl eq_refl eq_refl eq_refl).
Defined.

(** X7.  With a credential, when the request itself fails with a
    RequestException (connection error, timeout) or the response carries a
    4xx or 5xx status, [get_weather] returns the status error result
    "Unable to fetch weather data for '{city}'. Please check the city name
    and try again." after that single attempt. *)
Theorem get_weather_transport_failure (w : World) (city : string) :
  truthy (OPENWEATHER_API_KEY (config w)) = true →
  (∃ e, http w WeatherService.BASE_URL (ev_params (weather_request w city)) = NoReply e ∧
        is_RequestException e = true) ∨
  (∃ code body,
     http w WeatherService.BASE_URL (ev_params (weather_request w city)) = Reply code body ∧
     http_error_status code = true) →
  WeatherService.get_weather w city =
    ([weather_request w city],
     Returns (VDict [
       ("status", VStr "error");
       ("error_message",
         VStr ("Unable to fetch weather data for '" +:+ city
               +:+ "'. Please check the city name and try again."))])).
Proof.
  intros Hkey [(e & Hreply & He)|(code & body & Hreply & Hcode)].
  - by apply (get_weather_network_error w city Hkey e).
  - by apply (get_weather_http_error w city Hkey code body).
Qed.

Lemma get_weather_transport_failure_witness :
  truthy (OPENWEATHER_API_KEY (config Worlds.live_weather_timeout)) = true ∧
  WeatherService.get_weather Worlds.live_weather_timeout "London" =
    ([weather_request Worlds.live_weather_timeout "London"],
     Returns (VDict [
       ("status", VStr "error");
       ("error_message",
         VStr ("Unable to fetch weather data for '" +:+ "London"
               +:+ "'. Please check the city name and try again."))])).
Proof.
  split; [reflexivity|].
  apply (get_weather_transport_failure Worlds.live_weather_timeout "London" eq_refl).
  left. exists Timeout. by split.
Defined.

(** X8.  With a credential and a response without error status whose body
    cannot be decoded: if the decoding error is a RequestException (as
    requests' own JSONDecodeError is) the first [except] clause answers with
    the "Unable to fetch" result; if it is only a ValueError the second
    answers with "Received invalid weather data for '{city}'.". *)
Theorem get_weather_body_not_json (w : World) (city : string) (code : Z) (e : exn) :
  truthy (OPENWEATHER_API_KEY (config w)) = true →
  http w WeatherService.BASE_URL (ev_params (weather_request w city))
    = Reply code (Raises e) →
  http_error_status code = false →
  caught e = true →
  WeatherService.get_weather w city =
    ([weather_request w city],
     Returns (if is_RequestException e then weather_unable city else weather_invalid city)).
Proof.
  intros Hkey Hreply Hcode He.
  rewrite (eff_eta (WeatherService.get_weather w city)).
  rewrite (get_weather_live_trace w city Hkey).
  rewrite (get_weather_outcome_not_json w city Hkey code e Hreply Hcode).
  unfold WeatherService.except_clauses, caught in *.
  destruct (is_RequestException e); [done|].
  cbn [orb] in He. by rewrite He.
Qed.

Lemma get_weather_body_not_json_witness :
  outcome (WeatherService.get_weather
             (MoreWorlds.weather_not_json RequestsJSONDecodeError) "London")
    = Returns (weather_unable "London") ∧
  outcome (WeatherService.get_weather
             (MoreWorlds.weather_not_json JSONDecodeError) "London")
    = Returns (weather_invalid "London").
Proof.
  split.
  - by rewrite (get_weather_body_not_json
                  (MoreWorlds.weather_not_json RequestsJSONDecodeError) "London" 200
                  RequestsJSONDecodeError eq_refl eq_refl eq_refl eq_refl).
  - by rewrite (get_weather_body_not_json
                  (MoreWorlds.weather_not_json JSONDecodeError) "London" 200
                  JSONDecodeError eq_refl eq_refl eq_refl eq_refl).
Defined.

(** X9.  With a credential, a response without error status whose body is
    valid JSON but not an object (an array, a string, a number, true, false
    or null) makes [get_weather] raise TypeError to its caller: the
    subscription data['name'] fails and no [except] clause names
    TypeError. *)
Theorem get_weather_body_not_object (w : World) (city : string) (code : Z) (data : value) :
  truthy (OPENWEATHER_API_KEY (config w)) = true →
  http w WeatherService.BASE_URL (ev_params (weather_request w city))
    = Reply code (Returns data) →
  http_error_status code = false →
  (∀ d, data ≠ VDict d) →
  WeatherService.get_weather w city = ([weather_request w city], Raises TypeError).
Proof.
  intros Hkey Hreply Hcode Hdata.
  rewrite (eff_eta (WeatherService.get_weather w city)).
  rewrite (get_weather_live_trace w city Hkey).
  by rewrite (get_weather_outcome_not_object w city Hkey code data Hreply Hcode Hdata).
Qed.

Lemma get_weather_body_not_object_witness :
  WeatherService.get_weather MoreWorlds.weather_array "London" =
    ([weather_request MoreWorlds.weather_array "London"], Raises TypeError).
Proof.
  by apply (get_weather_body_not_object MoreWorlds.weather_array "London" 200 (VList [])
              eq_refl eq_refl eq_refl).
Defined.

(** ** The results a resolver can return *)

Lemma weather_result_mock w city :
  returns_only (weather_result city) (WeatherService._get_mock_weather w city).
Proof.
  unfold WeatherService._get_mock_weather.
  destruct (WeatherService.mock_weather !! _) as [r|] eqn:E.
  - destruct (mock_weather_entries _ _ E) as [report ->].
    apply returns_only_mret. by apply weather_success.
  - apply returns_only_mret. apply weather_is_unknown.
Qed.

Lemma weather_result_get_weather w city :
  returns_only (weather_result city) (WeatherService.get_weather w city).
Proof.
  unfold WeatherService.get_weather. apply returns_only_try.
  - case_match; [apply weather_result_mock|].
    do 18 (apply returns_only_bind; intros ?).
    apply returns_only_mret. by apply weather_success.
  - intros e h. unfold WeatherService.except_clauses.
    repeat case_match; intros [= <-]; apply returns_only_mret;
      [apply weather_is_unable|apply weather_is_invalid].
Qed.

(** X10.  A status error result of [get_weather] carries one of exactly
    three messages, each quoting the city as it was typed: "Unable to fetch
    weather data for '{city}'. Please check the city name and try again.",
    "Received invalid weather data for '{city}'." or "Sorry, I don't have
    weather information for '{city}'."; it has no other entry. *)
Theorem get_weather_error_messages (w : World) (city : string) (r : value) :
  outcome (WeatherService.get_weather w city) = Returns r →
  field "status" r = Some (VStr "error") →
  ∃ message,
    r = VDict [("status", VStr "error"); ("error_message", VStr message)] ∧
    (message = "Unable to fetch weather data for '" +:+ city
               +:+ "'. Please check the city name and try again." ∨
     message = "Received invalid weather data for '" +:+ city +:+ "'." ∨
     message = "Sorry, I don't have weather information for '" +:+ city +:+ "'.").
Proof.
  intros Hr Hstatus.
  destruct (weather_result_get_weather w city r Hr) as [r Hsuccess| | |].
  - congruence.
  - eexists. split; [reflexivity|]. by left.
  - eexists. split; [reflexivity|]. right. by left.
  - eexists. split; [reflexivity|]. right. by right.
Qed.

Lemma get_weather_error_messages_witness :
  outcome (WeatherService.get_weather Worlds.live_weather_timeout "London")
    = Returns (weather_unable "London") ∧
  field "status" (weather_unable "London") = Some (VStr "error") ∧
  ∃ message,
    weather_unable "London"
      = VDict [("status", VStr "error"); ("error_message", VStr message)] ∧
    (message = "Unable to fetch weather data for '" +:+ "London"
               +:+ "'. Please check the city name and try again." ∨
     message = "Received invalid weather data for '" +:+ "London" +:+ "'." ∨
     message = "Sorry, I don't have weather information for '" +:+ "London" +:+ "'.").
Proof.
  split; [reflexivity|]. split; [reflexivity|].
  exact (get_weather_error_messages Worlds.live_weather_timeout "London"
           (weather_unable "London") eq_refl eq_refl).
Defined.

Lemma time_result_fallback w city :
  returns_only (time_result city) (TimeService._get_fallback_time w city).
Proof.
  destruct (TimeService.FALLBACK_TIMEZONES !! city_key w city) as [zone|] eqn:E.
  - rewrite (_get_fallback_time_known w city zone E).
    intros r [= <-]. destruct (zone_db w zone); [by apply time_success|apply time_unknown].
  - rewrite (_get_fallback_time_unknown w city E).
    intros r [= <-]. apply time_unknown.
Qed.

Lemma time_result_query_by_zone w city zone_name :
  returns_only (time_result city) (TimeService.query_by_zone w city zone_name).
Proof.
  unfold TimeService.query_by_zone.
  do 4 (apply returns_only_bind; intros ?).
  case_match; [|apply time_result_fallback].
  do 2 (apply returns_only_bind; intros ?).
  apply returns_only_mret. by apply time_success.
Qed.

Lemma time_result_get_current_time w city :
  returns_only (time_result city) (TimeService.get_current_time w city).
Proof.
  unfold TimeService.get_current_time. apply returns_only_try.
  - case_match; [apply time_result_fallback|].
    do 2 (apply returns_only_bind; intros ?).
    case_match.
    + apply returns_only_bind; intros ?. apply time_result_query_by_zone.
    + case_match; [apply time_result_query_by_zone|].
      apply returns_only_mret. apply time_unknown.
  - intros e h. unfold TimeService.except_clauses.
    repeat case_match; intros [= <-]; apply time_result_fallback.
Qed.

(** X11.  A status error result of [get_current_time] is always the same
    one, whatever went wrong on the way (unknown city, live call failed and
    zone not loadable): "Sorry, I don't have timezone information for
    '{city}'." with the city as typed, and no other entry. *)
Theorem get_current_time_error_message (w : World) (city : string) (r : value) :
  outcome (TimeService.get_current_time w city) = Returns r →
  field "status" r = Some (VStr "error") →
  r = VDict [
        ("status", VStr "error");
        ("error_message",
          VStr ("Sorry, I don't have timezone information for '" +:+ city +:+ "'."))].
Proof.
  intros Hr Hstatus.
  destruct (time_result_get_current_time w city r Hr) as [r Hsuccess|]; [congruence|done].
Qed.

Lemma get_current_time_error_message_witness :
  outcome (TimeService.get_current_time Worlds.live_time_ok "Nowhereville")
    = Returns (TimeService.no_timezone_information "Nowhereville") ∧
  field "status" (TimeService.no_timezone_information "Nowhereville")
    = Some (VStr "error") ∧
  TimeService.no_timezone_information "Nowhereville" =
    VDict [
      ("status", VStr "error");
      ("error_message",
        VStr ("Sorry, I don't have timezone information for '" +:+ "Nowhereville" +:+ "'."))].
Proof.
  split; [reflexivity|]. split; [reflexivity|].
  exact (get_current_time_error_message Worlds.live_time_ok "Nowhereville"
           (TimeService.no_timezone_information "Nowhereville") eq_refl eq_refl).
Defined.

Lemma LookupResult_ok_report r :
  LookupResult_ok r → field "status" r = Some (VStr "success") → is_Some (field "report" r).
Proof. intros (H & _ & _) Hs. by apply H. Qed.

(** ** A listed city whose zone can be loaded *)

Section ListedCity.

Variable w : World.
Variable city zone : string.
Variable tz : tzinfo.

Hypothesis listed : TimeService.FALLBACK_TIMEZONES !! city_key w city = Some zone.
Hypothesis loadable : zone_db w zone = Some tz.

Lemma succeeds_fallback : returns_only succeeded (TimeService._get_fallback_time w city).
Proof.
  rewrite (_get_fallback_time_known w city zone listed), loadable.
  by intros r [= <-].
Qed.

Lemma succeeds_query_by_zone zone_name :
  returns_only succeeded (TimeService.query_by_zone w city zone_name).
Proof.
  unfold TimeService.query_by_zone.
  do 4 (apply returns_only_bind; intros ?).
  case_match; [|apply succeeds_fallback].
  do 2 (apply returns_only_bind; intros ?).
  by apply returns_only_mret.
Qed.

Lemma succeeds_get_current_time :
  returns_only succeeded (TimeService.get_current_time w city).
Proof.
  destruct (truthy (TIMEZONEDB_API_KEY (config w))) eqn:Hkey.
  - rewrite (get_current_time_by_table w city zone Hkey listed).
    apply returns_only_try; [apply succeeds_query_by_zone|].
    intros e h. unfold TimeService.except_clauses.
    repeat case_match; intros [= <-]; apply succeeds_fallback.
  - rewrite (get_current_time_no_credential w city Hkey). apply succeeds_fallback.
Qed.

End ListedCity.

(** X12.  For a city whose key is in the fallback table and whose zone the
    time-zone database can load, every result [get_current_time] returns
    has status success, with or without a credential and whatever the live
    endpoint answers: a failed live call never turns a known city into an
    error result. *)
Theorem listed_city_never_error (w : World) (city zone : string) (tz : tzinfo)
    (r : value) :
  TimeService.FALLBACK_TIMEZONES !! city_key w city = Some zone →
  zone_db w zone = Some tz →
  outcome (TimeService.get_current_time w city) = Returns r →
  field "status" r = Some (VStr "success") ∧ is_Some (field "report" r).
Proof.
  intros Hlisted Hload Hr. split.
  - exact (succeeds_get_current_time w city zone tz Hlisted Hload r Hr).
  - apply (LookupResult_ok_report r).
    + apply layout_LookupResult_ok. exact (layout_get_current_time w city r Hr).
    + exact (succeeds_get_current_time w city zone tz Hlisted Hload r Hr).
Qed.

Lemma listed_city_never_error_witness :
  TimeService.FALLBACK_TIMEZONES !! city_key Worlds.live_time_down "London"
    = Some "Europe/London" ∧
  is_Some (zone_db Worlds.live_time_down "Europe/London") ∧
  ∃ r, outcome (TimeService.get_current_time Worlds.live_time_down "London") = Returns r ∧
       field "status" r = Some (VStr "success") ∧ is_Some (field "report" r).
Proof.
  split; [reflexivity|]. split; [by eexists|].
  eexists. split; [reflexivity|].
  exact (listed_city_never_error Worlds.live_time_down "London" "Europe/London"
           (λ _, 0) _ eq_refl eq_refl eq_refl).
Defined.

(** ** Spellings of a city *)

(** X13.  Without credentials, two spellings of a city that normalize to
    the same key get the same answer: the weather results have the same
    status and, for a city of the mock table, are equal; the time results
    have the same status, zone and clock reading.  (Only the sentences that
    quote the city differ.) *)
Theorem same_key_same_answer (w : World) (c1 c2 : string) :
  truthy (OPENWEATHER_API_KEY (config w)) = false →
  truthy (TIMEZONEDB_API_KEY (config w)) = false →
  city_key w c1 = city_key w c2 →
  (is_Some (WeatherService.mock_weather !! city_key w c1) →
   WeatherService.get_weather w c1 = WeatherService.get_weather w c2) ∧
  (∃ r1 r2,
     WeatherService.get_weather w c1 = ([], Returns r1) ∧
     WeatherService.get_weather w c2 = ([], Returns r2) ∧
     field "status" r1 = field "status" r2) ∧
  (∃ r1 r2,
     TimeService.get_current_time w c1 = ([], Returns r1) ∧
     TimeService.get_current_time w c2 = ([], Returns r2) ∧
     field "status" r1 = field "status" r2 ∧
     field "data" r1 ≫= field "timezone" = field "data" r2 ≫= field "timezone" ∧
     field "data" r1 ≫= field "formatted_time" = field "data" r2 ≫= field "formatted_time").
Proof.
  intros Hweather Htime Hsame.
  rewrite !get_weather_no_credential by exact Hweather.
  rewrite !get_current_time_no_credential by exact Htime.
  split; [|split].
  - intros [r Hr].
    rewrite (_get_mock_weather_listed w c1 r Hr).
    rewrite Hsame in Hr. by rewrite (_get_mock_weather_listed w c2 r Hr).
  - destruct (WeatherService.mock_weather !! city_key w c1) as [r|] eqn:E.
    + rewrite (_get_mock_weather_listed w c1 r E).
      rewrite Hsame in E. rewrite (_get_mock_weather_listed w c2 r E).
      by do 2 eexists.
    + rewrite (_get_mock_weather_unlisted w c1 E).
      rewrite Hsame in E. rewrite (_get_mock_weather_unlisted w c2 E).
      by do 2 eexists.
  - destruct (TimeService.FALLBACK_TIMEZONES !! city_key w c1) as [zone|] eqn:E.
    + rewrite (_get_fallback_time_known w c1 zone E).
      rewrite Hsame in E. rewrite (_get_fallback_time_known w c2 zone E).
      destruct (zone_db w zone); by do 2 eexists.
    + rewrite (_get_fallback_time_unknown w c1 E).
      rewrite Hsame in E. rewrite (_get_fallback_time_unknown w c2 E).
      by do 2 eexists.
Qed.

Lemma same_key_same_answer_witness :
  city_key Worlds.bare "New York" = city_key Worlds.bare "NEW  YORK" ∧
  WeatherService.get_weather Worlds.bare "New York"
    = WeatherService.get_weather Worlds.bare "NEW  YORK" ∧
  ∃ r1 r2,
    TimeService.get_current_time Worlds.bare "New York" = ([], Returns r1) ∧
    TimeService.get_current_time Worlds.bare "NEW  YORK" = ([], Returns r2) ∧
    field "status" r1 = field "status" r2 ∧
    field "data" r1 ≫= field "timezone" = field "data" r2 ≫= field "timezone" ∧
    field "data" r1 ≫= field "formatted_time" = field "data" r2 ≫= field "formatted_time".
Proof.
  destruct (same_key_same_answer Worlds.bare "New York" "NEW  YORK"
              eq_refl eq_refl eq_refl) as (Hweather & _ & Htime).
  split; [reflexivity|]. split; [|exact Htime].
  apply Hweather. by eexists.
Defined.

(** ** The keys of the two tables *)

Lemma lowercase_letters_normal k :
  lowercase_letters k = true →
  Worlds.ascii_lower k = k ∧ remove_spaces k = k.
Proof.
  induction k as [|c k IH]; [done|].
  cbn [lowercase_letters]. intros [[Hlo Hhi]%andb_true_iff Hk]%andb_true_iff.
  destruct (IH Hk) as [IH1 IH2].
  apply Nat.leb_le in Hlo, Hhi.
  cbn [Worlds.ascii_lower remove_spaces]. rewrite IH1, IH2. split.
  - f_equal. unfold Worlds.lower_char.
    replace (65 <=? nat_of_ascii c)%nat with true by (symmetry; apply Nat.leb_le; lia).
    replace (nat_of_ascii c <=? 90)%nat with false by (symmetry; apply Nat.leb_gt; lia).
    done.
  - destruct (Ascii.eqb c " ") eqn:E; [|done].
    apply Ascii.eqb_eq in E. subst c.
    change (nat_of_ascii " ") with 32%nat in Hlo. lia.
Qed.

(** X14.  Every key of the fallback timezone table is made of lowercase
    ASCII letters only, so lowercasing it and removing spaces leave it
    unchanged: each of the ten entries can be reached by a city name.  Every
    key of the mock weather table is also a key of the timezone table. *)
Theorem table_keys_normal (k : string) :
  (is_Some (TimeService.FALLBACK_TIMEZONES !! k) →
   lowercase_letters k = true ∧ Worlds.ascii_lower k = k ∧ remove_spaces k = k) ∧
  (is_Some (WeatherService.mock_weather !! k) →
   is_Some (TimeService.FALLBACK_TIMEZONES !! k)).
Proof.
  split.
  - intros H%FALLBACK_TIMEZONES_listed.
    assert (Hk : lowercase_letters k = true).
    { repeat (apply elem_of_cons in H as [->|H]; [reflexivity|]).
      by apply elem_of_nil in H. }
    split; [exact Hk|]. by apply lowercase_letters_normal.
  - intros H%mock_weather_listed. apply FALLBACK_TIMEZONES_listed.
    repeat (apply elem_of_cons in H as [->|H];
            [repeat first [apply list_elem_of_here|apply list_elem_of_further]|]).
    by apply elem_of_nil in H.
Qed.

Lemma table_keys_normal_witness :
  is_Some (WeatherService.mock_weather !! "tokyo") ∧
  is_Some (TimeService.FALLBACK_TIMEZONES !! "tokyo") ∧
  lowercase_letters "tokyo" = true ∧
  Worlds.ascii_lower "tokyo" = "tokyo" ∧ remove_spaces "tokyo" = "tokyo".
Proof.
  assert (Hmock : is_Some (WeatherService.mock_weather !! "tokyo")) by (by eexists).
  destruct (table_keys_normal "tokyo") as [Htime Hweather].
  split; [exact Hmock|]. split; [exact (Hweather Hmock)|].
  exact (Htime (Hweather Hmock)).
Defined.

(** ** The configuration check *)

Lemma validate_config_nil w :
  validate_config (config w) = [] ↔
  Forall (λ name, truthy (getenv w name) = true) required_settings.
Proof.
  split.
  - rewrite validate_config_filter.
    intros H. apply Forall_forall. intros name Hin.
    destruct (truthy (getenv w name)) eqn:E; [done|].
    assert (Hf : name ∈ filter (λ name, truthy (getenv w name) = false) required_settings)
      by (by apply list_elem_of_filter).
    rewrite H in Hf. by apply elem_of_nil in Hf.
  - unfold required_settings. rewrite !Forall_cons.
    intros (H1 & H2 & H3 & H4 & _).
    unfold validate_config.
    cbn [config GOOGLE_API_KEY GOOGLE_MAPS_PLATFORM_API_KEY OPIK_API_KEY OPIK_WORKSPACE].
    by rewrite H1, H2, H3, H4.
Qed.

(** X15.  [is_production_ready] is true exactly when [validate_config]
    reports nothing, which is exactly when GOOGLE_API_KEY,
    GOOGLE_MAPS_PLATFORM_API_KEY, OPIK_API_KEY and OPIK_WORKSPACE are all set
    to a non-empty value. *)
Theorem is_production_ready_iff (w : World) :
  (is_production_ready (config w) = true ↔ validate_config (config w) = []) ∧
  (is_production_ready (config w) = true ↔
   ∀ name, name ∈ ["GOOGLE_API_KEY"; "GOOGLE_MAPS_PLATFORM_API_KEY";
                   "OPIK_API_KEY"; "OPIK_WORKSPACE"] →
           ∃ v, getenv w name = Some v ∧ v ≠ "").
Proof.
  assert (Hready : is_production_ready (config w) = true ↔ validate_config (config w) = []).
  { unfold is_production_ready. rewrite Nat.eqb_eq. apply length_zero_iff_nil. }
  split; [exact Hready|].
  rewrite Hready, validate_config_nil, Forall_forall. unfold required_settings.
  split; intros H name Hin; specialize (H name Hin).
  - destruct (getenv w name) as [v|]; [|done]. exists v. split; [done|].
    intros ->. done.
  - destruct H as (v & -> & Hv). cbn. apply negb_true_iff, String.eqb_neq, Hv.
Qed.

Lemma is_production_ready_iff_witness :
  is_production_ready (config Worlds.checked_only) = true ∧
  validate_config (config Worlds.checked_only) = [] ∧
  ∃ v, getenv Worlds.checked_only "OPIK_WORKSPACE" = Some v ∧ v ≠ "".
Proof.
  destruct (is_production_ready_iff Worlds.checked_only) as [Hnil Hall].
  assert (Hready : is_production_ready (config Worlds.checked_only) = true)
    by reflexivity.
  split; [exact Hready|]. split; [exact (proj1 Hnil Hready)|].
  apply (proj1 Hall Hready).
  repeat first [apply list_elem_of_here|apply list_elem_of_further].
Defined.

(** X16.  The list [validate_config] returns has no duplicates and keeps
    the order GOOGLE_API_KEY, GOOGLE_MAPS_PLATFORM_API_KEY, OPIK_API_KEY,
    OPIK_WORKSPACE: it is a sublist of that list, so never longer than
    four. *)
Theorem validate_config_sublist (w : World) :
  NoDup (validate_config (config w)) ∧
  sublist (validate_config (config w))
    ["GOOGLE_API_KEY"; "GOOGLE_MAPS_PLATFORM_API_KEY"; "OPIK_API_KEY"; "OPIK_WORKSPACE"] ∧
  (length (validate_config (config w)) ≤ 4)%nat.
Proof.
  rewrite validate_config_filter.
  assert (Hsub : sublist (filter (λ name, truthy (getenv w name) = false) required_settings)
                   required_settings) by apply sublist_filter.
  split; [|split; [exact Hsub|]].
  - apply NoDup_filter. unfold required_settings.
    repeat (apply NoDup_cons; split;
            [rewrite ?elem_of_cons, elem_of_nil; intros H; by repeat destruct H as [H|H]|]).
    apply NoDup_nil_2.
  - apply sublist_length in Hsub. exact Hsub.
Qed.

(** ** The configuration message of the sidebar *)

Lemma append_nil_r (s : string) : s +:+ "" = s.
Proof.
  induction s as [|c s IH]; [done|].
  change (String c (s +:+ "") = String c s). by rewrite IH.
Qed.

Lemma mentions_wrap before after s x :
  mentions s x → mentions (before +:+ s +:+ after) x.
Proof.
  intros (b & a & ->). exists (before +:+ b), (a +:+ after).
  by rewrite !append_assoc.
Qed.

Lemma join_mentions sep l x : x ∈ l → mentions (app.join sep l) x.
Proof.
  induction l as [|y l IH]; [by intros ?%elem_of_nil|].
  intros [->|Hin]%elem_of_cons.
  - destruct l as [|z l].
    + exists "", "". cbn. by rewrite append_nil_r.
    + by exists "", (sep +:+ app.join sep (z :: l)).
  - destruct l as [|z l]; [by apply elem_of_nil in Hin|].
    change (app.join sep (y :: z :: l)) with (y +:+ sep +:+ app.join sep (z :: l)).
    rewrite <- (append_nil_r (app.join sep (z :: l))).
    rewrite <- append_assoc. apply mentions_wrap, IH, Hin.
Qed.

(** X17.  [check_configuration] returns nothing exactly when the
    configuration is production ready; otherwise it returns the sentence
    "Missing required configuration: ... . Please check your .env file."
    which names every setting [validate_config] reports, and the sidebar
    shows a configuration issue instead of "Configuration OK". *)
Theorem check_configuration_message (w : World) :
  (app.check_configuration w = None ↔ is_production_ready (config w) = true) ∧
  (∀ message name,
     app.check_configuration w = Some message →
     name ∈ validate_config (config w) →
     mentions message name) ∧
  (app.display_sidebar_status w = app.st_success "✅ Configuration OK" ↔
   is_production_ready (config w) = true).
Proof.
  unfold app.display_sidebar_status, app.check_configuration, is_production_ready.
  destruct (validate_config (config w)) as [|x l] eqn:E.
  - split; [done|]. split; [done|]. done.
  - split; [done|]. split; [|done].
    intros message name [= <-] Hin.
    apply mentions_wrap. exact (join_mentions ", " (x :: l) name Hin).
Qed.

Lemma check_configuration_message_witness :
  app.check_configuration Worlds.bare =
    Some ("Missing required configuration: GOOGLE_API_KEY, GOOGLE_MAPS_PLATFORM_API_KEY, "
          +:+ "OPIK_API_KEY, OPIK_WORKSPACE. Please check your .env file.") ∧
  "OPIK_API_KEY" ∈ validate_config (config Worlds.bare) ∧
  mentions ("Missing required configuration: GOOGLE_API_KEY, GOOGLE_MAPS_PLATFORM_API_KEY, "
            +:+ "OPIK_API_KEY, OPIK_WORKSPACE. Please check your .env file.")
    "OPIK_API_KEY".
Proof.
  assert (Hin : "OPIK_API_KEY" ∈ validate_config (config Worlds.bare)).
  { change (validate_config (config Worlds.bare)) with required_settings.
    apply list_elem_of_further, list_elem_of_further, list_elem_of_here. }
  split; [reflexivity|]. split; [exact Hin|].
  exact (proj1 (proj2 (check_configuration_message Worlds.bare)) _ "OPIK_API_KEY"
           eq_refl Hin).
Defined.

(** ** The chat session *)

Section Chat.

Import chat.

Variable run_live : string → agent_outcome.

Lemma initialize_messages s :
  messages (initialize_session_state s) = Some (history s).
Proof. unfold initialize_session_state, history. by destruct s as [[l|] [b|]]. Qed.

Lemma paired_snoc l u a :
  paired l → role u = "user" → role a = "assistant" → paired (l ++ [u; a]).
Proof.
  intros Hl Hu Ha.
  assert (H : ∀ l, (paired l → paired (l ++ [u; a])) ∧
                   (∀ x, paired (x :: l) → paired (x :: l ++ [u; a]))).
  { clear l Hl. induction l as [|y l [IH1 IH2]].
    - split; [done|]. by intros x [].
    - split; [apply IH2|].
      intros x (Hx & Hy & Hrest). cbn. split; [done|]. split; [done|].
      by apply IH1. }
  by apply H.
Qed.

(** What one run with no missing package does to the history. *)
Lemma main_history ui s :
  ∃ s',
    main [] run_live ui s =
      (if clear_chat ui then []
       else if truthy (chat_input ui) then [default "" (chat_input ui)] else [],
       Returns s') ∧
    history s' =
      if clear_chat ui then []
      else if truthy (chat_input ui) then
        history s ++ [user_turn (default "" (chat_input ui));
                      assistant_turn (run_live (default "" (chat_input ui)))]
      else history s.
Proof.
  unfold main, display_sidebar.
  destruct (clear_chat ui); [by eexists|].
  unfold display_chat_interface, append. rewrite initialize_messages.
  destruct (truthy (chat_input ui)).
  - cbn [messages].
    destruct (run_live _); (eexists; split; [reflexivity|]);
      unfold history; cbn [messages default from_option id];
      by rewrite <- app_assoc.
  - eexists. split; [reflexivity|]. unfold history. by rewrite initialize_messages.
Qed.

End Chat.

(** X19.  [initialize_session_state] only fills in what is absent: it never
    discards a history or a flag that is already in the session, it leaves
    both keys present, and running it again changes nothing. *)
Theorem initialize_session_state_keeps (s : chat.session_state) :
  chat.initialize_session_state (chat.initialize_session_state s)
    = chat.initialize_session_state s ∧
  is_Some (chat.messages (chat.initialize_session_state s)) ∧
  is_Some (chat.agent_initialized (chat.initialize_session_state s)) ∧
  (∀ l, chat.messages s = Some l →
        chat.messages (chat.initialize_session_state s) = Some l) ∧
  (∀ b, chat.agent_initialized s = Some b →
        chat.agent_initialized (chat.initialize_session_state s) = Some b) ∧
  (chat.messages s = None → chat.messages (chat.initialize_session_state s) = Some []) ∧
  (chat.agent_initialized s = None →
   chat.agent_initialized (chat.initialize_session_state s) = Some false).
Proof.
  unfold chat.initialize_session_state.
  destruct s as [[l|] [b|]]; cbn; repeat split; try done; try (by eexists);
    by intros ? [= ->].
Qed.

Lemma initialize_session_state_keeps_witness :
  chat.messages (chat.initialize_session_state
                   {| chat.messages := Some [user_turn "hi"];
                      chat.agent_initialized := None |})
    = Some [user_turn "hi"] ∧
  chat.agent_initialized (chat.initialize_session_state
                            {| chat.messages := Some [user_turn "hi"];
                               chat.agent_initialized := None |})
    = Some false.
Proof.
  destruct (initialize_session_state_keeps
              {| chat.messages := Some [user_turn "hi"];
                 chat.agent_initialized := None |})
    as (_ & _ & _ & Hkeep & _ & _ & Hflag).
  split; [exact (Hkeep _ eq_refl)|exact (Hflag eq_refl)].
Defined.

(** X20.  A run of the script never raises, whatever the session held
    before, because [main] initializes the session before the chat interface
    reads it; [display_chat_interface] on its own raises AttributeError when
    the session has no history yet. *)
Theorem main_never_raises (MISSING_PACKAGES : list string)
    (run_live : string → chat.agent_outcome) (ui : chat.widgets)
    (s : chat.session_state) :
  (∃ s', (chat.main MISSING_PACKAGES run_live ui s).2 = Returns s') ∧
  (chat.messages s = None →
   chat.display_chat_interface run_live ui s = ([], Raises AttributeError)).
Proof.
  split.
  - destruct MISSING_PACKAGES as [|p ps]; [|by eexists].
    destruct (main_history run_live ui s) as (s' & -> & _). by eexists.
  - intros H. unfold chat.display_chat_interface. by rewrite H.
Qed.

Lemma main_never_raises_witness :
  chat.display_chat_interface (λ _, chat.throws "boom")
    {| chat.clear_chat := false; chat.try_again := false; chat.chat_input := Some "hi" |}
    {| chat.messages := None; chat.agent_initialized := None |}
    = ([], Raises AttributeError) ∧
  ∃ s', (chat.main [] (λ _, chat.throws "boom")
           {| chat.clear_chat := false; chat.try_again := false;
              chat.chat_input := Some "hi" |}
           {| chat.messages := None; chat.agent_initialized := None |}).2 = Returns s'.
Proof.
  destruct (main_never_raises [] (λ _, chat.throws "boom")
              {| chat.clear_chat := false; chat.try_again := false;
                 chat.chat_input := Some "hi" |}
              {| chat.messages := None; chat.agent_initialized := None |})
    as [Hmain Hchat].
  split; [exact (Hchat eq_refl)|exact Hmain].
Defined.

(** X21.  A run in which the user submits a non-empty prompt (and does not
    press "Clear Chat") passes the prompt to the agent exactly once and
    extends the history by exactly two turns, the user's prompt and then one
    assistant turn; earlier turns are kept.  The assistant turn holds the
    text of the response, or "Sorry, I encountered an error: " followed by
    the error when the agent raises. *)
Theorem submit_appends_two_turns (run_live : string → chat.agent_outcome)
    (ui : chat.widgets) (s : chat.session_state) (prompt : string) :
  chat.clear_chat ui = false →
  chat.chat_input ui = Some prompt →
  prompt ≠ "" →
  ∃ s',
    chat.main [] run_live ui s = ([prompt], Returns s') ∧
    chat.history s' =
      chat.history s ++
        [{| chat.role := "user"; chat.content := prompt |};
         {| chat.role := "assistant";
            chat.content :=
              match run_live prompt with
              | chat.responds r => chat.response_text r
              | chat.throws str_e => "Sorry, I encountered an error: " +:+ str_e
              end |}].
Proof.
  intros Hclear Hinput Hprompt.
  destruct (main_history run_live ui s) as (s' & Hmain & Hhistory).
  rewrite Hclear, Hinput in Hmain, Hhistory.
  assert (Htruthy : truthy (Some prompt) = true)
    by (by apply negb_true_iff, String.eqb_neq).
  rewrite Htruthy in Hmain, Hhistory. by exists s'.
Qed.

Lemma submit_appends_two_turns_witness :
  ∃ s',
    chat.main [] (λ _, chat.throws "boom")
      {| chat.clear_chat := false; chat.try_again := false; chat.chat_input := Some "hi" |}
      {| chat.messages := None; chat.agent_initialized := None |}
      = (["hi"], Returns s') ∧
    chat.history s' =
      [] ++ [{| chat.role := "user"; chat.content := "hi" |};
             {| chat.role := "assistant";
                chat.content := "Sorry, I encountered an error: " +:+ "boom" |}].
Proof.
  apply (submit_appends_two_turns (λ _, chat.throws "boom")
           {| chat.clear_chat := false; chat.try_again := false;
              chat.chat_input := Some "hi" |}
           {| chat.messages := None; chat.agent_initialized := None |} "hi");
    done.
Defined.

(** X22.  Runs that do not reach the agent.  With a missing package the
    session is left untouched.  With "Clear Chat" pressed the history
    becomes empty and the chat input of that run is ignored.  With no
    prompt, or an empty one, the history stays as it was. *)
Theorem runs_without_dispatch (run_live : string → chat.agent_outcome)
    (ui : chat.widgets) (s : chat.session_state) :
  (∀ MISSING_PACKAGES,
     MISSING_PACKAGES ≠ [] →
     chat.main MISSING_PACKAGES run_live ui s = ([], Returns s)) ∧
  (chat.clear_chat ui = true →
   ∃ s', chat.main [] run_live ui s = ([], Returns s') ∧ chat.messages s' = Some []) ∧
  (chat.clear_chat ui = false →
   chat.chat_input ui = None ∨ chat.chat_input ui = Some "" →
   ∃ s', chat.main [] run_live ui s = ([], Returns s') ∧
         chat.history s' = chat.history s).
Proof.
  split; [|split].
  - by intros [|p ps].
  - intros Hclear. unfold chat.main, chat.display_sidebar. rewrite Hclear.
    by eexists.
  - intros Hclear Hinput.
    destruct (main_history run_live ui s) as (s' & Hmain & Hhistory).
    rewrite Hclear in Hmain, Hhistory.
    assert (Htruthy : truthy (chat.chat_input ui) = false)
      by (by apply truthy_false).
    rewrite Htruthy in Hmain, Hhistory. by exists s'.
Qed.

Lemma runs_without_dispatch_witness :
  ∃ s',
    chat.main [] (λ _, chat.responds (chat.plain "sunny"))
      {| chat.clear_chat := true; chat.try_again := false;
         chat.chat_input := Some "weather in London?" |}
      {| chat.messages := Some [user_turn "hi"; assistant_turn (chat.throws "boom")];
         chat.agent_initialized := Some false |}
      = ([], Returns s') ∧
    chat.messages s' = Some [].
Proof.
  exact (proj1 (proj2 (runs_without_dispatch (λ _, chat.responds (chat.plain "sunny"))
           {| chat.clear_chat := true; chat.try_again := false;
              chat.chat_input := Some "weather in London?" |}
           {| chat.messages := Some [user_turn "hi"; assistant_turn (chat.throws "boom")];
              chat.agent_initialized := Some false |})) eq_refl).
Defined.

(** X23.  Over any number of runs, with any widget inputs and any agent, a
    history in which user and assistant turns alternate (user first,
    assistant last) stays so; in particular every history grown from an
    empty session has this shape and an even length. *)
Theorem history_stays_paired (run_live : string → chat.agent_outcome)
    (uis : list chat.widgets) (s : chat.session_state) :
  chat.paired (chat.history s) →
  chat.paired (chat.history (chat.runs run_live uis s)).
Proof.
  revert s. induction uis as [|ui uis IH]; intros s Hs; [done|].
  cbn [chat.runs].
  destruct (main_history run_live ui s) as (s' & -> & Hhistory).
  apply IH. rewrite Hhistory.
  destruct (chat.clear_chat ui); [done|].
  destruct (truthy (chat.chat_input ui)); [|done].
  by apply paired_snoc.
Qed.

Lemma history_stays_paired_witness :
  chat.paired (chat.history {| chat.messages := None; chat.agent_initialized := None |}) ∧
  chat.paired (chat.history (chat.runs (λ _, chat.responds (chat.with_text "sunny"))
    [{| chat.clear_chat := false; chat.try_again := false; chat.chat_input := Some "a" |};
     {| chat.clear_chat := false; chat.try_again := false; chat.chat_input := None |};
     {| chat.clear_chat := false; chat.try_again := false; chat.chat_input := Some "b" |}]
    {| chat.messages := None; chat.agent_initialized := None |})).
Proof.
  assert (H : chat.paired (chat.history
                {| chat.messages := None; chat.agent_initialized := None |}))
    by exact I.
  split; [exact H|].
  exact (history_stays_paired _ _ _ H).
Defined.

(** ** The local runner *)



(** ** Replies the time resolver does not survive *)

Lemma time_live_listed_trace w city zone :
  truthy (TIMEZONEDB_API_KEY (config w)) = true →
  TimeService.FALLBACK_TIMEZONES !! city_key w city = Some zone →
  trace (TimeService.get_current_time w city) = [zone_request w (VStr zone)].
Proof.
  intros Hkey Hzone.
  rewrite (get_current_time_by_table w city zone Hkey Hzone).
  rewrite trace_try, query_by_zone_trace.
  destruct (outcome _) as [r|e]; [done|].
  unfold TimeService.except_clauses.
  repeat case_match; cbn [from_option]; by rewrite ?silent_fallback_time.
Qed.

(** X25.  With a credential and a city of the table, two kinds of reply
    without error status make [get_current_time] raise instead of falling
    back: a body that is valid JSON but not an object (AttributeError, from
    data.get), and an object with status OK whose timestamp is a string, a
    list, an object or null (TypeError, from datetime.fromtimestamp).  The
    request has been sent by then. *)
Theorem get_current_time_unusable_reply (w : World) (city zone : string) (code : Z)
    (data : value) :
  truthy (TIMEZONEDB_API_KEY (config w)) = true →
  TimeService.FALLBACK_TIMEZONES !! city_key w city = Some zone →
  http w TimeService.BASE_URL (ev_params (zone_request w (VStr zone)))
    = Reply code (Returns data) →
  http_error_status code = false →
  ((∀ d, data ≠ VDict d) →
   TimeService.get_current_time w city
     = ([zone_request w (VStr zone)], Raises AttributeError)) ∧
  (∀ d ts,
     data = VDict d →
     assoc "status" d = Some (VStr "OK") →
     assoc "timestamp" d = Some ts →
     (∀ n, ts ≠ VInt n) → (∀ b, ts ≠ VBool b) → (∀ r, ts ≠ VFloat r) →
     TimeService.get_current_time w city
       = ([zone_request w (VStr zone)], Raises TypeError)).
Proof.
  intros Hkey Hzone Hreply Hcode.
  cbn [ev_params zone_request] in Hreply.
  assert (Htrace : trace (TimeService.get_current_time w city)
                   = [zone_request w (VStr zone)]).
  { exact (time_live_listed_trace w city zone Hkey Hzone). }
  assert (Hstart : outcome (TimeService.get_current_time w city) =
    match
      match method_get data "status" with
      | Returns status =>
          outcome (if eq_str status "OK" then
                     timestamp ← lift (getitem data "timestamp");
                     dt ← fromtimestamp w timestamp;
                     mret (VDict [
                       ("status", VStr "success");
                       ("report", VStr (
                          "The current time in " +:+ city +:+ " ("
                          +:+ py_str w (VStr zone) +:+ ") is " +:+ strftime_HM dt
                          +:+ " on " +:+ strftime_Ymd dt +:+ "."));
                       ("data", VDict [
                          ("city", VStr city);
                          ("timezone", VStr zone);
                          ("timestamp", timestamp);
                          ("formatted_time", VStr (strftime_HM dt));
                          ("formatted_date", VStr (strftime_Ymd dt))])])
                   else TimeService._get_fallback_time w city)
      | Raises e => Raises e
      end
    with
    | Raises e => from_option outcome (Raises e) (TimeService.except_clauses w city e)
    | Returns a => Returns a
    end).
  { rewrite (get_current_time_by_table w city zone Hkey Hzone), outcome_try.
    unfold TimeService.query_by_zone, requests_get.
    rewrite outcome_bind. cbn [outcome snd]. rewrite Hreply.
    rewrite outcome_bind. cbn [raise_for_status]. rewrite Hcode.
    cbn [outcome snd mret Eff_ret].
    rewrite outcome_bind. cbn [json lift outcome snd].
    rewrite outcome_bind. by cbn [lift outcome snd]. }
  split.
  - intros Hdata.
    rewrite (eff_eta (TimeService.get_current_time w city)), Htrace, Hstart.
    assert (G : method_get data "status" = Raises AttributeError).
    { destruct data; try done. by destruct (Hdata d). }
    by rewrite G.
  - intros d ts -> Hstatus Hts Hint Hbool Hfloat.
    rewrite (eff_eta (TimeService.get_current_time w city)), Htrace, Hstart.
    cbn [method_get]. rewrite Hstatus. cbn [default from_option id eq_str].
    rewrite String.eqb_refl.
    rewrite outcome_bind. cbn [getitem lift outcome snd]. rewrite Hts.
    rewrite outcome_bind.
    assert (G : fromtimestamp w ts = ([], Raises TypeError)).
    { destruct ts; try done;
        [by destruct (Hbool b)|by destruct (Hint n)|by destruct (Hfloat repr)]. }
    by rewrite G.
Qed.

Lemma get_current_time_unusable_reply_witness :
  TimeService.get_current_time Worlds.live_time_array "London"
    = ([zone_request Worlds.live_time_array (VStr "Europe/London")],
       Raises AttributeError) ∧
  TimeService.get_current_time Worlds.live_time_text_timestamp "London"
    = ([zone_request Worlds.live_time_text_timestamp (VStr "Europe/London")],
       Raises TypeError).
Proof.
  split.
  - apply (proj1 (get_current_time_unusable_reply Worlds.live_time_array "London"
                    "Europe/London" 200 (VList []) eq_refl eq_refl eq_refl eq_refl)).
    intros d Hd. discriminate Hd.
  - apply (proj2 (get_current_time_unusable_reply Worlds.live_time_text_timestamp
                    "London" "Europe/London" 200 _ eq_refl eq_refl eq_refl eq_refl)
             _ (VStr "1700000000") eq_refl eq_refl eq_refl);
      intros x Hx; discriminate Hx.
Defined.
